(** * berlin_brains_2023: the Streamlit tutorial apps

    A shallow embedding of the three scripts under [interactive_apps]:
    - [streamlit_minimal.py] and its solution (the toy [string_creator]);
    - [solutions/streamlit_fooof_solved.py], a script that Streamlit runs
      from the top on every interaction: it loads a recording, computes its
      spectrum, reads the widgets, fits FOOOF and shows a figure and
      metrics.

    Python [str] is embedded as [string], Python [int] as [Z], the
    [st.cache_data] stores as [gmap]s, and a script run as a computation in
    a state-and-exception monad over the session state. *)

From Stdlib Require Import ZArith QArith List Lia Ascii.
From stdpp Require Import gmap strings list fin_maps.

Local Open Scope string_scope.
Local Open Scope list_scope.
Local Open Scope Z_scope.

(** ** Python string and list primitives used by the scripts *)

Module Py.

(** The one-character string ['\n']. *)
Definition nl : string := String (Ascii.ascii_of_nat 10) EmptyString.

Fixpoint str_repeat (s : string) (n : nat) : string :=
  match n with
  | O => ""
  | S n' => s +:+ str_repeat s n'
  end.

(** [s * k] on a [str]: [k] copies, none when [k <= 0]. *)
Definition str_mul (s : string) (k : Z) : string :=
  str_repeat s (Z.to_nat k).

(** [l * k] on a [list]: [k] copies of [l] chained, none when [k <= 0]. *)
Definition list_mul {A} (l : list A) (k : Z) : list A :=
  List.concat (replicate (Z.to_nat k) l).

(** [sep.join(parts)]. *)
Fixpoint join (sep : string) (parts : list string) : string :=
  match parts with
  | [] => ""
  | [p] => p
  | p :: rest => p +:+ sep +:+ join sep rest
  end.

(** Truth value of a [str] in a condition: non-empty. *)
Definition truthy (s : string) : bool :=
  match s with
  | EmptyString => false
  | String _ _ => true
  end.

(** [len(s)]. *)
Definition len (s : string) : nat := String.length s.

(** [s.split(sep)] for a one-character separator. *)
Fixpoint split_on (c : Ascii.ascii) (s : string) : list string :=
  match s with
  | EmptyString => [""]
  | String a rest =>
      if Ascii.eqb a c then "" :: split_on c rest
      else match split_on c rest with
           | [] => [String a ""]
           | w :: ws => String a w :: ws
           end
  end.

(** Whether the character occurs in the string. *)
Fixpoint has_char (c : Ascii.ascii) (s : string) : bool :=
  match s with
  | EmptyString => false
  | String a rest => Ascii.eqb a c || has_char c rest
  end.

(** [pathlib.PurePosixPath]: the root (slashes at the start: two of them
    are kept, any other number is one) and the components between
    slashes, the empty ones and [.] left out. *)
Definition path_root (s : string) : string :=
  match s with
  | String "/"%char (String "/"%char (String "/"%char _)) => "/"
  | String "/"%char (String "/"%char _) => "//"
  | String "/"%char _ => "/"
  | _ => ""
  end.

Definition path_parts (s : string) : list string :=
  List.filter (fun part => negb (String.eqb part "" || String.eqb part "."))
    (split_on "/"%char s).

(** [str(path)] for a root and components. *)
Definition path_str (root : string) (parts : list string) : string :=
  match root, parts with
  | EmptyString, [] => "."
  | _, _ => root +:+ join "/" parts
  end.

End Py.

(** ** What the two toy apps draw *)

Module Ui.

Inductive Place : Type := Main | Sidebar.

Inductive Element : Type :=
| Title (text : string)
| Widget (label : string)
| Text (text : string)
| Markdown (text : string).

(** The options of the select box [Symbol] and the bounds of the slider
    [Length], the same in both apps. *)
Definition symbols : list string := ["🌊"; "🐘"].
Definition min_length : Z := 1.
Definition max_length : Z := 10.

(** The values the two widgets can deliver. *)
Definition deliverable (symbol : string) (length : Z) : Prop :=
  In symbol symbols /\ min_length <= length <= max_length.

(** The string literal that closes both files; Streamlit writes it to
    the app. *)
Definition exercise_text : string :=
  "
Exercise: 
1. Add one or more widgets to the app
2. Update the `string_creator` function to use the value from the new widget somehow

Here is the list of widgets available in Streamlit:
https://docs.streamlit.io/library/api-reference/widgets

Some ideas (feel free to follow your own ones):

- TextInput: add custom prefix in the beginning of the string
- Checkbox: generate a square of symbols (`length` lines of `length` symbols) 
    if the checkbox is activated
".

(** The texts [st.text] has drawn. *)
Fixpoint texts (scr : list (Place * Element)) : list string :=
  match scr with
  | [] => []
  | (_, Text t) :: rest => t :: texts rest
  | _ :: rest => texts rest
  end.

End Ui.

(** ** [streamlit_minimal.py] *)

Module Minimal.

(** [def string_creator(symbol, length): return symbol * length] *)
Definition string_creator (symbol : string) (length : Z) : string :=
  Py.str_mul symbol length.

(** The file, top to bottom, for the values of its two widgets. *)
Definition app (symbol : string) (length : Z)
    : list (Ui.Place * Ui.Element) :=
  [(Ui.Main, Ui.Title "_Minimal_ Example :sunglasses:");
   (Ui.Sidebar, Ui.Widget "Symbol");
   (Ui.Sidebar, Ui.Widget "Length");
   (Ui.Main, Ui.Text (string_creator symbol length));
   (Ui.Main, Ui.Markdown Ui.exercise_text)].

End Minimal.

(** ** [solutions/streamlit_minimal_solved.py] *)

Module MinimalSolved.

Definition string_creator (symbol : string) (length : Z)
    (prefix : string) (make_square : bool) : string :=
  let result := Py.str_mul symbol length in
  let result :=
    if make_square
    then Py.join Py.nl (Py.list_mul [Py.str_mul symbol length] length)
    else result in
  if Py.truthy prefix
  then prefix +:+ ":" +:+ Py.nl +:+ result
  else result.

(** The file, top to bottom, for the values of its four widgets. *)
Definition app (symbol : string) (length : Z) (prefix : string)
    (make_square : bool) : list (Ui.Place * Ui.Element) :=
  [(Ui.Main, Ui.Title "Minimal Example :sunglasses:");
   (Ui.Sidebar, Ui.Widget "Symbol");
   (Ui.Sidebar, Ui.Widget "Length");
   (Ui.Sidebar, Ui.Widget "Prefix");
   (Ui.Sidebar, Ui.Widget "Make square");
   (Ui.Main, Ui.Text (string_creator symbol length prefix make_square));
   (Ui.Main, Ui.Markdown Ui.exercise_text)].

(** The line [prefix:] that heads the text, when there is a prefix. *)
Definition header (prefix : string) : string :=
  if Py.truthy prefix then prefix +:+ ":" +:+ Py.nl else "".

End MinimalSolved.

(** ** [solutions/streamlit_fooof_solved.py] *)

Module Fooof.

(** *** Exceptions and results *)

(** The exceptions a run of the script can end with: the two that the
    script's own expressions raise ([Path(None)], an index out of range)
    and whatever a library call raises. *)
Inductive exn : Type :=
| TypeError
| IndexError
| FileNotFoundError
| LibraryError (name : string).

Inductive result (A : Type) : Type :=
| Ok (a : A)
| Raise (e : exn).
Arguments Ok {A} a.
Arguments Raise {A} e.

(** *** The widgets' values *)

Inductive Mode : Type := fixed | knee.

(** What the sidebar widgets return in one run: the index picked in the
    channel select box and the values of the sliders, radio and
    checkboxes. *)
Record Widgets : Type := {
  w_channel : nat;
  w_f_range : Z * Z;
  w_peak_width : Q * Q;
  w_max_n_peaks : Z;
  w_aperiodic_mode : Mode;
  w_annotate_peaks : bool;
  w_annotate_aperiodic : bool
}.

(** The arguments of [FOOOF(...)]. *)
Record Settings : Type := {
  peak_width_limits : Q * Q;
  max_n_peaks : Z;
  aperiodic_mode : Mode
}.

(** The values the widgets are declared to deliver: the range sliders
    give an ordered pair inside [min_value, max_value], the select box
    one of its options. *)
Definition valid_widgets (options : list string) (ui : Widgets) : bool :=
  (w_channel ui <? length options)%nat
  && (0 <=? fst (w_f_range ui)) && (fst (w_f_range ui) <=? snd (w_f_range ui))
  && (snd (w_f_range ui) <=? 250)
  && Qle_bool 0 (fst (w_peak_width ui))
  && Qle_bool (fst (w_peak_width ui)) (snd (w_peak_width ui))
  && Qle_bool (snd (w_peak_width ui)) 40
  && (1 <=? w_max_n_peaks ui) && (w_max_n_peaks ui <=? 10).

(** *** The libraries the script calls

    [mne], [fooof], [numpy] and [matplotlib] are not part of the
    repository: their types are opaque and their functions are taken as
    they come, each one either returning or raising. *)
Record Library : Type := {
  Raw : Type;
  Spectrum : Type;
  Psd : Type;
  Freqs : Type;
  Fm : Type;
  Axes : Type;
  num : Type;
  (** [round(x, 2)] on a float *)
  round2 : num -> num;
  (** [mne.io.read_raw_fif(path_to_file)] *)
  read_raw_fif : string -> result Raw;
  (** [mne.pick_info(raw.info, mne.pick_types(raw.info, meg=True,
      eeg=True))['ch_names']] *)
  meeg_ch_names_of : Raw -> list string;
  (** [raw.compute_psd(fmin=0, fmax=250)] *)
  compute_psd : Raw -> result Spectrum;
  (** [spec.get_data(picks=channel, return_freqs=True)] *)
  get_data : Spectrum -> option string -> result (Psd * Freqs);
  (** [np.squeeze(psd)] *)
  squeeze : Psd -> Psd;
  (** [fm = FOOOF(peak_width_limits=.., max_n_peaks=..,
      aperiodic_mode=..)] then [fm.fit(freqs, psd, freq_range=f_range)] *)
  fooof_fit : Settings -> Freqs -> Psd -> Z * Z -> result Fm;
  (** [fm.aperiodic_params_], a 1-d array *)
  aperiodic_params_ : Fm -> list num;
  (** [fm.peak_params_], a 2-d array given by its rows *)
  peak_params_ : Fm -> list (list num);
  (** [plot_annotated_model(fm, annotate_peaks=.., annotate_aperiodic=..,
      plt_log=.., ax=..)] on a fresh axis *)
  plot_annotated_model : Fm -> bool -> bool -> bool -> result Axes
}.

(** *** What a run draws and what it computes *)

Inductive Place : Type := Main | Sidebar | Expander | ColLeft | ColRight.

Inductive Element (L : Library) : Type :=
| Title (text : string)
| Markdown (text : string)
| Warning (text : string)
| Widget (label : string)
| Pyplot (ax_linear ax_log : Axes L)
| Metric (label : string) (value : num L).
Arguments Title {L} text.
Arguments Markdown {L} text.
Arguments Warning {L} text.
Arguments Widget {L} label.
Arguments Pyplot {L} ax_linear ax_log.
Arguments Metric {L} label value.

(** The library computations, logged as they are executed. *)
Inductive Call : Type :=
| CallRead (path_to_file : string)
| CallPsd
| CallGetData (channel : option string)
| CallFit (settings : Settings) (f_range : Z * Z)
| CallPlot (plt_log : bool).

(** The state of a Streamlit process running the script: the two
    [st.cache_data] stores, which live as long as the process, the
    elements drawn by the current run, and the log of library
    computations. The screen holds what the file draws; the box in which
    Streamlit shows the exception that ended a run is not an element of
    the file: that exception is the result of the run. *)
Record Session (L : Library) : Type := {
  raw_cache : gmap (option string) (Raw L);
  spectrum_cache : gmap unit (Spectrum L);
  screen : list (Place * Element L);
  calls : list Call
}.
Arguments raw_cache {L} s.
Arguments spectrum_cache {L} s.
Arguments screen {L} s.
Arguments calls {L} s.
Arguments Build_Session {L} _ _ _ _.

Section Script.
Context {L : Library}.

(** *** The monad of script steps: state, and exceptions that end the
    run where they are raised (the script has no [try]). *)
Definition M (A : Type) : Type := Session L -> result A * Session L.

Definition ret {A} (a : A) : M A := fun s => (Ok a, s).

Definition bind {A B} (m : M A) (k : A -> M B) : M B :=
  fun s =>
    match m s with
    | (Ok a, s') => k a s'
    | (Raise e, s') => (Raise e, s')
    end.

Definition lift {A} (r : result A) : M A := fun s => (r, s).

Definition emit (where_ : Place) (e : Element L) : M unit :=
  fun s => (Ok tt,
            Build_Session (raw_cache s) (spectrum_cache s)
                          (screen s ++ [(where_, e)]) (calls s)).

(** A library computation: logged, then its outcome. *)
Definition call {A} (c : Call) (r : result A) : M A :=
  fun s => (r,
            Build_Session (raw_cache s) (spectrum_cache s)
                          (screen s) (calls s ++ [c])).

Notation "x <- m ;; k" := (bind m (fun x => k))
  (at level 62, m at next level, right associativity).
Notation "m ;;; k" := (bind m (fun _ => k))
  (at level 62, right associativity).

(** [arr[0]], [arr[-1]] and [arr[0, 0]]: [IndexError] out of range. *)
Definition index_first {A} (arr : list A) : result A :=
  match arr with
  | [] => Raise IndexError
  | x :: _ => Ok x
  end.

Fixpoint index_last {A} (arr : list A) : result A :=
  match arr with
  | [] => Raise IndexError
  | [x] => Ok x
  | _ :: rest => index_last rest
  end.

Definition index_00 {A} (arr : list (list A)) : result A :=
  match arr with
  | [] => Raise IndexError
  | row :: _ => index_first row
  end.

(** *** [@st.cache_data]

    The decorated function's results are kept in a store of its own
    under the key made of the arguments of the call: a call whose key
    is stored returns the entry and does not run the body; otherwise
    the body runs and, unless it raises, its result is stored. Entries
    are never dropped. What a caller gets here is the value of the
    entry; which object it is comes with [load_data_object] below. *)
Definition cache_data {K V} `{Countable K}
    (store : Session L -> gmap K V)
    (save : gmap K V -> Session L -> Session L)
    (body : K -> M V) (key : K) : M V :=
  fun s =>
    match store s !! key with
    | Some v => (Ok v, s)
    | None =>
        match body key s with
        | (Ok v, s') => (Ok v, save (<[key := v]> (store s')) s')
        | (Raise e, s') => (Raise e, s')
        end
    end.

Definition save_raw (c : gmap (option string) (Raw L)) (s : Session L)
    : Session L :=
  Build_Session c (spectrum_cache s) (screen s) (calls s).

Definition save_spectrum (c : gmap unit (Spectrum L)) (s : Session L)
    : Session L :=
  Build_Session (raw_cache s) c (screen s) (calls s).

(** [Path(path_to_data) / 'sub-01' / 'sub-01-raw.fif'], as the text of
    the path built: two more components under the directory's own.
    [Path(None)] is a [TypeError]. *)
Definition path_to_file (path_to_data : option string) : result string :=
  match path_to_data with
  | None => Raise TypeError
  | Some dir =>
      Ok (Py.path_str (Py.path_root dir)
            (Py.path_parts dir ++ ["sub-01"; "sub-01-raw.fif"]))
  end.

(** *** The helper functions *)

Definition load_data_body (path_to_data : option string) : M (Raw L) :=
  file <- lift (path_to_file path_to_data) ;;
  call (CallRead file) (read_raw_fif L file).

(** [@st.cache_data def load_data(path_to_data)] *)
Definition load_data (path_to_data : option string) : M (Raw L) :=
  cache_data raw_cache save_raw load_data_body path_to_data.

(** [@st.cache_data def get_spectrum()]: the function has no
    parameter, so its key is the empty tuple; its body reads the
    script's global [raw], here the argument [raw] of the model. *)
Definition get_spectrum (raw : Raw L) : M (Spectrum L) :=
  cache_data spectrum_cache save_spectrum
    (fun _ : unit => call CallPsd (compute_psd L raw)) tt.

(** *** The script, step by step *)

Definition warning_text : string :=
  "Please specify the full path to the dataset in the variable `path_to_data` (line XXX)".

Definition peak_label : string :=
  "Peak frequency (Hz)" +:+ Py.nl +:+ Py.nl +:+ "[first peak only]".

Definition exercise_text : string :=
  "
Exercise:

Use checkboxes 'Annotate peaks' and 'Annotate aperiodic' (e.g.,
for channel EEG039) to highlight the estimated parameters of the
spectra.

Add more FOOOF parameters to the app to explore their influence
on the resulting fit, in particular:

1. Frequency range (provided to the `fm.fit` function)
2. FOOOF settings (provided to `FOOOF`):
  * `peak_width_limits`
  * `max_n_peaks`
  * `aperiodic_mode`
".

(** Title and the expander with the three links. *)
Definition header : M unit :=
  emit Main (Title "FOOOF") ;;;
  emit Expander
    (Markdown "[Documentation](https://fooof-tools.github.io/fooof/index.html)") ;;;
  emit Expander
    (Markdown "[Tutorials](https://fooof-tools.github.io/fooof/auto_tutorials/index.html)") ;;;
  emit Expander (Markdown "[Paper](https://doi.org/10.1038/s41593-020-00744-x)").

(** STEP 0: [if path_to_data is None: st.warning(...)]; the run goes
    on after the warning. *)
Definition step0 (path_to_data : option string) : M unit :=
  match path_to_data with
  | None => emit Main (Warning warning_text)
  | Some _ => ret tt
  end.

(** STEP 2: the sidebar. The select box returns the picked option
    ([None] when there is none), the other widgets their value. *)
Definition sidebar : M unit :=
  emit Sidebar (Widget "Channel") ;;;
  emit Sidebar (Widget "Frequency range (Hz)") ;;;
  emit Sidebar (Widget "Peak width limits (Hz)") ;;;
  emit Sidebar (Widget "Maximal number of peaks") ;;;
  emit Sidebar (Widget "Aperiodic mode") ;;;
  emit Sidebar (Widget "Annotate peaks") ;;;
  emit Sidebar (Widget "Annotate aperiodic").

Definition selectbox (options : list string) (picked : nat)
    : option string :=
  options !! picked.

Definition settings_of (ui : Widgets) : Settings :=
  {| peak_width_limits := w_peak_width ui;
     max_n_peaks := w_max_n_peaks ui;
     aperiodic_mode := w_aperiodic_mode ui |}.

(** STEP 4, first half: extract the channel's spectrum and fit. *)
Definition fit (spec : Spectrum L) (channel : option string)
    (ui : Widgets) : M (Fm L) :=
  pf <- call (CallGetData channel) (get_data L spec channel) ;;
  call (CallFit (settings_of ui) (w_f_range ui))
       (fooof_fit L (settings_of ui) (snd pf) (squeeze L (fst pf))
                  (w_f_range ui)).

(** STEP 4, second half: the two annotated plots. *)
Definition plot (fm : Fm L) (ui : Widgets) : M (Axes L * Axes L) :=
  ax_linear <- call (CallPlot false)
    (plot_annotated_model L fm (w_annotate_peaks ui)
                          (w_annotate_aperiodic ui) false) ;;
  ax_log <- call (CallPlot true)
    (plot_annotated_model L fm (w_annotate_peaks ui)
                          (w_annotate_aperiodic ui) true) ;;
  ret (ax_linear, ax_log).

(** STEP 5: the figure in the left column, the metrics in the right
    one. Each argument is evaluated before its [st.metric] draws. *)
Definition render (fig : Axes L * Axes L) (fm : Fm L) : M unit :=
  emit ColLeft (Pyplot (fst fig) (snd fig)) ;;;
  offset <- lift (index_first (aperiodic_params_ L fm)) ;;
  emit ColRight (Metric "Offset" (round2 L offset)) ;;;
  exponent <- lift (index_last (aperiodic_params_ L fm)) ;;
  emit ColRight (Metric "Exponent" (round2 L exponent)) ;;;
  match peak_params_ L fm with
  | [] => ret tt
  | _ :: _ =>
      cf <- lift (index_00 (peak_params_ L fm)) ;;
      emit ColRight (Metric peak_label (round2 L cf))
  end.

(** STEPS 2 to 5, the part of a run that depends on the widgets. The
    closing string literal of the file is written to the app as well. *)
Definition interact (raw : Raw L) (spec : Spectrum L) (ui : Widgets)
    : M unit :=
  sidebar ;;;
  fm <- fit spec (selectbox (meeg_ch_names_of L raw) (w_channel ui)) ui ;;
  fig <- plot fm ui ;;
  render fig fm ;;;
  emit Main (Markdown exercise_text).

(** The whole file, top to bottom. *)
Definition script (path_to_data : option string) (ui : Widgets)
    : M unit :=
  header ;;;
  step0 path_to_data ;;;
  raw <- load_data path_to_data ;;
  spec <- get_spectrum raw ;;
  interact raw spec ui.

(** One run: Streamlit clears what the previous run drew and executes
    the file; the caches and the log go on. *)
Definition rerun (s : Session L) : Session L :=
  Build_Session (raw_cache s) (spectrum_cache s) [] (calls s).

Definition run (path_to_data : option string) (ui : Widgets)
    (s : Session L) : result unit * Session L :=
  script path_to_data ui (rerun s).

(** A process lifetime: one run per interaction. *)
Fixpoint runs (inputs : list (option string * Widgets))
    (s : Session L) : Session L :=
  match inputs with
  | [] => s
  | (path_to_data, ui) :: rest => runs rest (snd (run path_to_data ui s))
  end.

(** *** Reading a screen and a log *)

Fixpoint metrics (scr : list (Place * Element L))
    : list (string * num L) :=
  match scr with
  | [] => []
  | (_, Metric label value) :: rest => (label, value) :: metrics rest
  | _ :: rest => metrics rest
  end.

Fixpoint figures (scr : list (Place * Element L))
    : list (Axes L * Axes L) :=
  match scr with
  | [] => []
  | (_, Pyplot a b) :: rest => (a, b) :: figures rest
  | _ :: rest => figures rest
  end.

Fixpoint warnings (scr : list (Place * Element L)) : list string :=
  match scr with
  | [] => []
  | (_, Warning text) :: rest => text :: warnings rest
  | _ :: rest => warnings rest
  end.

Definition is_read (file : string) (c : Call) : bool :=
  match c with
  | CallRead f => String.eqb f file
  | _ => false
  end.

Definition is_psd (c : Call) : bool :=
  match c with CallPsd => true | _ => false end.

Definition is_fit (c : Call) : bool :=
  match c with CallFit _ _ => true | _ => false end.

Fixpoint count (p : Call -> bool) (log : list Call) : nat :=
  match log with
  | [] => O
  | c :: rest => if p c then S (count p rest) else count p rest
  end.

(** The session with more drawn and more logged, the stores as they
    were; the session of a process that has just started. *)
Definition extend (s : Session L) (drawn : list (Place * Element L))
    (log : list Call) : Session L :=
  Build_Session (raw_cache s) (spectrum_cache s)
                (screen s ++ drawn) (calls s ++ log).

Definition blank : Session L := Build_Session ∅ ∅ [] [].

(** A step is framed when it only draws and logs: it ends the same
    way in every session and leaves the stores alone. *)
Definition framed {A} (m : M A) : Prop :=
  forall s, m s = (fst (m blank),
                   extend s (screen (snd (m blank)))
                            (calls (snd (m blank)))).

(** What the file draws before it loads the data. *)
Definition intro_elements (path_to_data : option string)
    : list (Place * Element L) :=
  screen (snd ((header ;;; step0 path_to_data) blank)).

(** How a step ends, what it draws and what it computes when it
    starts on an empty screen and an empty log. *)
Definition outcome {A} (m : M A)
    : result A * list (Place * Element L) * list Call :=
  (fst (m blank), screen (snd (m blank)), calls (snd (m blank))).

Definition sidebar_drawn : list (Place * Element L) :=
  screen (snd (sidebar blank)).

(** How STEPS 2 to 5 end, what they draw and what they compute, for
    a recording, a spectrum and the widgets' values. *)
Definition interact_result (raw : Raw L) (spec : Spectrum L)
    (ui : Widgets) : result unit :=
  fst (interact raw spec ui blank).

Definition interact_drawn (raw : Raw L) (spec : Spectrum L)
    (ui : Widgets) : list (Place * Element L) :=
  screen (snd (interact raw spec ui blank)).

Definition interact_log (raw : Raw L) (spec : Spectrum L)
    (ui : Widgets) : list Call :=
  calls (snd (interact raw spec ui blank)).

(** Where a run stands when it reaches [load_data]: the previous screen
    cleared, the title block drawn. *)
Definition start (path_to_data : option string) (s : Session L)
    : Session L :=
  extend (rerun s) (intro_elements path_to_data) [].

(** The first peak's centre frequency, when there is a peak. *)
Definition first_peak (fm : Fm L) : option (num L) :=
  match peak_params_ L fm with
  | (cf :: _) :: _ => Some cf
  | _ => None
  end.

Definition is_any_read (c : Call) : bool :=
  match c with CallRead _ => true | _ => false end.

Definition is_get_data (c : Call) : bool :=
  match c with CallGetData _ => true | _ => false end.

Definition is_plot (c : Call) : bool :=
  match c with CallPlot _ => true | _ => false end.

(** Every stored recording is what the reader returns for the file of
    its key. *)
Definition coherent (s : Session L) : Prop :=
  forall p raw, raw_cache s !! p = Some raw ->
    exists file, path_to_file p = Ok file /\ read_raw_fif L file = Ok raw.

(** Two widget states that differ at most in the two annotation
    checkboxes. *)
Definition same_but_annotations (ui ui' : Widgets) : Prop :=
  w_channel ui = w_channel ui'
  /\ w_f_range ui = w_f_range ui'
  /\ w_peak_width ui = w_peak_width ui'
  /\ w_max_n_peaks ui = w_max_n_peaks ui'
  /\ w_aperiodic_mode ui = w_aperiodic_mode ui'.

(** The three links of the expander. *)
Definition links : list string :=
  ["[Documentation](https://fooof-tools.github.io/fooof/index.html)";
   "[Tutorials](https://fooof-tools.github.io/fooof/auto_tutorials/index.html)";
   "[Paper](https://doi.org/10.1038/s41593-020-00744-x)"].

Definition place_eqb (a b : Place) : bool :=
  match a, b with
  | Main, Main | Sidebar, Sidebar | Expander, Expander
  | ColLeft, ColLeft | ColRight, ColRight => true
  | _, _ => false
  end.

(** Where the file puts each element: title and warning in the main
    panel, the three links in the expander, the closing text in the main
    panel (and no other text anywhere), the widgets in the sidebar, the
    figure in the left column, the metrics in the right one. *)
Definition place_of (e : Element L) : option Place :=
  match e with
  | Title _ | Warning _ => Some Main
  | Markdown text =>
      if String.eqb text exercise_text then Some Main
      else if existsb (String.eqb text) links then Some Expander
      else None
  | Widget _ => Some Sidebar
  | Pyplot _ _ => Some ColLeft
  | Metric _ _ => Some ColRight
  end.

Definition well_placed (we : Place * Element L) : bool :=
  match place_of (snd we) with
  | Some where_ => place_eqb where_ (fst we)
  | None => false
  end.

Fixpoint widgets (scr : list (Place * Element L)) : list string :=
  match scr with
  | [] => []
  | (_, Widget label) :: rest => label :: widgets rest
  | _ :: rest => widgets rest
  end.

(** *** Three sentences of the specification, as they are written

    Each is about a run that reaches the fit with both stores filled,
    or about a path that is not stored yet. *)


(** A fit that raises is recovered from: the run does not end with
    the exception. *)
Definition recovers_from_fit_error : Prop :=
  forall path_to_data ui (s : Session L) raw spec pf e,
    raw_cache s !! path_to_data = Some raw ->
    spectrum_cache s !! () = Some spec ->
    get_data L spec (selectbox (meeg_ch_names_of L raw) (w_channel ui))
      = Ok pf ->
    fooof_fit L (settings_of ui) (snd pf) (squeeze L (fst pf))
              (w_f_range ui) = Raise e ->
    fst (run path_to_data ui s) = Ok tt.

(** A path that is not stored and gives no file that can be read ends
    the run with the not-found exception and a warning on the screen. *)
Definition unresolved_path_warned : Prop :=
  forall path_to_data ui (s : Session L),
    raw_cache s !! path_to_data = None ->
    (forall file, path_to_file path_to_data = Ok file ->
                  exists e, read_raw_fif L file = Raise e) ->
    let out := run path_to_data ui s in
    fst out = Raise FileNotFoundError
    /\ warnings (screen (snd out)) <> [].

(** *** Objects

    [st.cache_data] keeps a pickled copy of what the function returned
    and hands every caller an object of its own: the value just computed
    when the body ran, a copy unpickled from the entry otherwise. An
    object is a value with the serial number of its creation; [born] is
    the number of the next object. *)
Record Obj (A : Type) : Type := { oid : nat; content : A }.
Arguments oid {A} o.
Arguments content {A} o.
Arguments Build_Obj {A} oid content.

Definition load_data_object (path_to_data : option string) (born : nat)
    (s : Session L) : result (Obj (Raw L)) * Session L * nat :=
  match load_data path_to_data s with
  | (Ok raw, s') => (Ok (Build_Obj born raw), s', S born)
  | (Raise e, s') => (Raise e, s', born)
  end.

(** The sentence of the specification on the second call of [load]: it
    returns the very object the first call returned. *)
Definition hit_returns_same_object : Prop :=
  forall path_to_data born (s s1 s2 : Session L) o1 o2 born1 born2,
    load_data_object path_to_data born s = (Ok o1, s1, born1) ->
    load_data_object path_to_data born1 s1 = (Ok o2, s2, born2) ->
    o2 = o1.

(** The reads made by the runs of a process that were given the path
    [path_to_data], run by run. *)
Fixpoint reads_for (path_to_data : option string)
    (inputs : list (option string * Widgets)) (s : Session L) : nat :=
  match inputs with
  | [] => O
  | (q, ui) :: rest =>
      ((if decide (q = path_to_data)
        then count is_any_read (calls (snd (run q ui s)))
             - count is_any_read (calls s)
        else O)
       + reads_for path_to_data rest (snd (run q ui s)))%nat
  end.

(** STEP 4 and STEP 5 in one: fit, plot, and draw what was fitted. *)
Definition fit_then_render (spec : Spectrum L) (channel : option string)
    (ui : Widgets) : M unit :=
  fm <- fit spec channel ui ;;
  fig <- plot fm ui ;;
  render fig fm.

(** The sentence of the specification on drawing what was fitted: for
    every spectrum and every value the widgets can deliver it does not
    raise. *)
Definition render_after_fit_never_raises : Prop :=
  forall raw spec ui (s : Session L),
    valid_widgets (meeg_ch_names_of L raw) ui = true ->
    fst (fit_then_render spec
           (selectbox (meeg_ch_names_of L raw) (w_channel ui)) ui s)
    = Ok tt.

(** The sentence of the specification on a cycle: what it shows is
    decided by the path and the widgets' values alone. *)
Definition cycle_decided_by_inputs : Prop :=
  forall path_to_data ui (s s' : Session L),
    metrics (screen (snd (run path_to_data ui s)))
    = metrics (screen (snd (run path_to_data ui s'))).

(** A fitted model as FOOOF documents it: aperiodic parameters (two or
    three; one is all STEP 5 needs) and three numbers per peak. *)
Definition well_formed (fm : Fm L) : Prop :=
  aperiodic_params_ L fm <> []
  /\ Forall (fun row => length row = 3%nat) (peak_params_ L fm).

End Script.

Arguments oid {A} o.
Arguments content {A} o.
Arguments Build_Obj {A} oid content.

(** *** A small stand-in for the libraries

    Three recordings, under the directories [A], [B] and [C]; numbers
    are integers; the fit reads offset and exponent off the spectrum and
    the frequency range, and raises on the spectrum of [C]. With [strict]
    the fit raises [IndexError] on an inverted range, where it finds no
    frequency to fit; without it the fit accepts any range. *)
Module Demo.

Definition read (file : string) : result Z :=
  if String.eqb file "A/sub-01/sub-01-raw.fif" then Ok 1
  else if String.eqb file "B/sub-01/sub-01-raw.fif" then Ok 2
  else if String.eqb file "C/sub-01/sub-01-raw.fif" then Ok 3
  else Raise FileNotFoundError.

Definition fit_model (strict : bool) (st : Settings) (freqs : unit)
    (psd : Z) (f_range : Z * Z) : result (list Z * list (list Z)) :=
  if strict && (snd f_range <? fst f_range)
  then Raise IndexError
  else if psd =? 300 then Raise (LibraryError "FitError")
  else
    Ok (match aperiodic_mode st with
        | fixed => [psd + fst f_range; snd f_range]
        | knee => [psd + fst f_range; 0; snd f_range]
        end,
        if (fst f_range <=? 10) && (10 <=? snd f_range)
        then [[10; 1; 2]] else []).

Definition library (strict : bool) : Library :=
  {| Raw := Z; Spectrum := Z; Psd := Z; Freqs := unit;
     Fm := list Z * list (list Z); Axes := bool; num := Z;
     round2 := fun x => x;
     read_raw_fif := read;
     meeg_ch_names_of := fun _ => ["EEG001"; "EEG039"];
     compute_psd := fun raw => Ok (100 * raw);
     get_data := fun spec _ => Ok (spec, tt);
     squeeze := fun psd => psd;
     fooof_fit := fit_model strict;
     aperiodic_params_ := fst;
     peak_params_ := snd;
     plot_annotated_model := fun _ _ _ plt_log => Ok plt_log |}.

(** The widgets as the script initialises them, channel EEG039. *)
Definition ui : Widgets :=
  {| w_channel := 1; w_f_range := (1, 45);
     w_peak_width := (1 # 2, 12 # 1)%Q; w_max_n_peaks := 3;
     w_aperiodic_mode := fixed;
     w_annotate_peaks := false; w_annotate_aperiodic := false |}.

Definition ui_inverted : Widgets :=
  {| w_channel := 1; w_f_range := (45, 1);
     w_peak_width := (1 # 2, 12 # 1)%Q; w_max_n_peaks := 3;
     w_aperiodic_mode := fixed;
     w_annotate_peaks := false; w_annotate_aperiodic := false |}.

Definition ui_high : Widgets :=
  {| w_channel := 1; w_f_range := (20, 45);
     w_peak_width := (1 # 2, 12 # 1)%Q; w_max_n_peaks := 3;
     w_aperiodic_mode := knee;
     w_annotate_peaks := true; w_annotate_aperiodic := false |}.

(** The initial widgets with both annotation boxes ticked. *)
Definition ui_annotated : Widgets :=
  {| w_channel := 1; w_f_range := (1, 45);
     w_peak_width := (1 # 2, 12 # 1)%Q; w_max_n_peaks := 3;
     w_aperiodic_mode := fixed;
     w_annotate_peaks := true; w_annotate_aperiodic := true |}.

(** The session after a first run on the recording under [dir]. *)
Definition after (strict : bool) (dir : string)
    : Session (library strict) :=
  snd (run (Some dir) ui blank).

End Demo.

End Fooof.

(** * Properties *)

(** ** The toy [string_creator] *)

Section StringCreator.

Lemma len_append (a b : string) :
  Py.len (a +:+ b) = (Py.len a + Py.len b)%nat.
Proof.
  unfold Py.len. induction a as [|x a IH]; simpl; [reflexivity|].
  rewrite IH. reflexivity.
Qed.

Lemma str_repeat_len (s : string) (n : nat) :
  Py.len (Py.str_repeat s n) = (n * Py.len s)%nat.
Proof.
  induction n as [|n IH]; simpl; [reflexivity|].
  rewrite len_append, IH. reflexivity.
Qed.

Lemma has_char_app (c : Ascii.ascii) (a b : string) :
  Py.has_char c (a +:+ b) = Py.has_char c a || Py.has_char c b.
Proof.
  induction a as [|x a IH]; simpl; [reflexivity|].
  rewrite IH. apply orb_assoc.
Qed.

Lemma has_char_repeat (c : Ascii.ascii) (s : string) (n : nat) :
  Py.has_char c s = false -> Py.has_char c (Py.str_repeat s n) = false.
Proof.
  intros Hs. induction n as [|n IH]; simpl; [reflexivity|].
  rewrite has_char_app, Hs, IH. reflexivity.
Qed.

Lemma split_on_absent (c : Ascii.ascii) (s : string) :
  Py.has_char c s = false -> Py.split_on c s = [s].
Proof.
  induction s as [|x s IH]; simpl; [reflexivity|].
  intros H. apply orb_false_iff in H as [Hx Hs].
  rewrite Hx, (IH Hs). reflexivity.
Qed.

Lemma split_on_cut (c : Ascii.ascii) (a rest : string) :
  Py.has_char c a = false ->
  Py.split_on c (a +:+ String c rest) = a :: Py.split_on c rest.
Proof.
  induction a as [|x a IH]; simpl.
  - intros _. rewrite Ascii.eqb_refl. reflexivity.
  - intros H. apply orb_false_iff in H as [Hx Ha].
    rewrite Hx, (IH Ha). reflexivity.
Qed.

(** Splitting a joined text at the separator gives the parts back. *)
Lemma split_on_join (c : Ascii.ascii) (parts : list string) :
  parts <> [] ->
  Forall (fun p => Py.has_char c p = false) parts ->
  Py.split_on c (Py.join (String c "") parts) = parts.
Proof.
  induction parts as [|p parts IH]; [congruence|].
  intros _ Hall. inversion Hall as [|? ? Hp Hrest]; subst.
  destruct parts as [|q parts].
  - simpl. apply split_on_absent, Hp.
  - change (Py.join (String c "") (p :: q :: parts))
      with (p +:+ String c (Py.join (String c "") (q :: parts))).
    rewrite split_on_cut by exact Hp.
    rewrite IH by (congruence || assumption). reflexivity.
Qed.

Lemma list_mul_singleton {A} (x : A) (k : Z) :
  Py.list_mul [x] k = replicate (Z.to_nat k) x.
Proof.
  unfold Py.list_mul. induction (Z.to_nat k) as [|n IH]; simpl;
    [reflexivity|]. rewrite IH. reflexivity.
Qed.

End StringCreator.

(** ** The FOOOF app: how the steps act on the session *)

Section Steps.
Import Fooof.
Context {L : Library}.

Lemma framed_ret {A} (a : A) : framed (L:=L) (ret a).
Proof. intros [rc sc scr log]. unfold ret, extend; simpl.
       by rewrite !app_nil_r. Qed.

Lemma framed_lift {A} (r : result A) : framed (L:=L) (lift r).
Proof. intros [rc sc scr log]. unfold lift, extend; simpl.
       by rewrite !app_nil_r. Qed.

Lemma framed_emit (where_ : Place) (e : Element L) : framed (emit where_ e).
Proof. intros [rc sc scr log]. unfold emit, extend; simpl.
       by rewrite app_nil_r. Qed.

Lemma framed_call {A} (c : Call) (r : result A) : framed (L:=L) (call c r).
Proof. intros [rc sc scr log]. unfold call, extend; simpl.
       by rewrite app_nil_r. Qed.

Lemma extend_extend (s : Session L) d1 l1 d2 l2 :
  extend (extend s d1 l1) d2 l2 = extend s (d1 ++ d2) (l1 ++ l2).
Proof. unfold extend; simpl. by rewrite !app_assoc. Qed.

Lemma framed_bind {A B} (m : @M L A) (k : A -> @M L B) :
  framed m -> (forall a, framed (k a)) -> framed (bind m k).
Proof.
  intros Hm Hk s. unfold bind.
  assert (Hb : snd (m blank)
               = extend blank (screen (snd (m blank))) (calls (snd (m blank))))
    by (rewrite (Hm blank) at 1; reflexivity).
  rewrite (Hm s). destruct (m blank) as [[a|e] sb]; simpl in *.
  - rewrite (Hk a (extend s _ _)), Hb, (Hk a (extend blank _ _)).
    simpl. rewrite extend_extend. reflexivity.
  - reflexivity.
Qed.

Lemma outcome_ret {A} (a : A) : outcome (L:=L) (ret a) = (Ok a, [], []).
Proof. reflexivity. Qed.

Lemma outcome_lift {A} (r : result A) : outcome (L:=L) (lift r) = (r, [], []).
Proof. reflexivity. Qed.

Lemma outcome_emit (where_ : Place) (e : Element L) :
  outcome (emit where_ e) = (Ok tt, [(where_, e)], []).
Proof. reflexivity. Qed.

Lemma outcome_call {A} (c : Call) (r : result A) :
  outcome (L:=L) (call c r) = (r, [], [c]).
Proof. reflexivity. Qed.

(** A sequence draws and logs what its first step does and then, if
    that step returns, what the rest does. *)
Lemma outcome_bind {A B} (m : @M L A) (k : A -> @M L B) :
  framed m -> (forall a, framed (k a)) ->
  outcome (bind m k) =
  match outcome m with
  | (Ok a, drawn, log) =>
      match outcome (k a) with
      | (r, drawn', log') => (r, drawn ++ drawn', log ++ log')
      end
  | (Raise e, drawn, log) => (Raise e, drawn, log)
  end.
Proof.
  intros Hm Hk. unfold outcome, bind.
  assert (Hb : snd (m blank)
               = extend blank (screen (snd (m blank))) (calls (snd (m blank))))
    by (rewrite (Hm blank) at 1; reflexivity).
  destruct (m blank) as [[a|e] sb]; simpl in *; [|reflexivity].
  rewrite Hb, (Hk a (extend blank _ _)). reflexivity.
Qed.

End Steps.

Ltac framed_steps :=
  repeat (intros; cbv beta; match goal with
    | |- Fooof.framed (Fooof.bind _ _) => apply framed_bind
    | |- Fooof.framed (Fooof.ret _) => apply framed_ret
    | |- Fooof.framed (Fooof.lift _) => apply framed_lift
    | |- Fooof.framed (Fooof.emit _ _) => apply framed_emit
    | |- Fooof.framed (Fooof.call _ _) => apply framed_call
    | |- Fooof.framed (match ?x with _ => _ end) => destruct x
    end).

Ltac outcome_steps :=
  repeat (cbn [fst snd app];
    first
      [ rewrite outcome_bind by framed_steps
      | rewrite outcome_emit | rewrite outcome_call
      | rewrite outcome_lift | rewrite outcome_ret
      | match goal with
        | |- context [match ?x with _ => _ end] =>
            lazymatch x with
            | Fooof.get_data _ _ _ => idtac
            | Fooof.fooof_fit _ _ _ _ _ => idtac
            | Fooof.plot_annotated_model _ _ _ _ _ => idtac
            | Fooof.index_first _ => idtac
            | Fooof.index_last _ => idtac
            | Fooof.index_00 _ => idtac
            | Fooof.peak_params_ _ _ => idtac
            end;
            destruct x eqn:?
        end ]).

Section Stages.
Import Fooof.
Context {L : Library}.

Lemma framed_fit spec channel ui : framed (L:=L) (fit spec channel ui).
Proof. unfold fit. framed_steps. Qed.

Lemma framed_plot fm ui : framed (L:=L) (plot fm ui).
Proof. unfold plot. framed_steps. Qed.

Lemma framed_render fig fm : framed (L:=L) (render fig fm).
Proof.
  unfold render. framed_steps.
Qed.

Lemma framed_interact raw spec ui : framed (L:=L) (interact raw spec ui).
Proof.
  unfold interact, sidebar. framed_steps.
  - apply framed_fit.
  - apply framed_plot.
  - apply framed_render.
Qed.

(** STEPS 2 to 5 in full: where they can end, and what is on the
    screen and in the log at each of these ends. *)
Lemma interact_outcome raw spec ui :
  let channel := selectbox (meeg_ch_names_of L raw) (w_channel ui) in
  let fitting := [CallGetData channel;
                  CallFit (settings_of ui) (w_f_range ui)] in
  let plotting := fitting ++ [CallPlot false; CallPlot true] in
  outcome (interact raw spec ui) =
  match get_data L spec channel with
  | Raise e => (Raise e, sidebar_drawn, [CallGetData channel])
  | Ok pf =>
  match fooof_fit L (settings_of ui) (snd pf) (squeeze L (fst pf))
                  (w_f_range ui) with
  | Raise e => (Raise e, sidebar_drawn, fitting)
  | Ok fm =>
  match plot_annotated_model L fm (w_annotate_peaks ui)
                             (w_annotate_aperiodic ui) false with
  | Raise e => (Raise e, sidebar_drawn, fitting ++ [CallPlot false])
  | Ok ax_linear =>
  match plot_annotated_model L fm (w_annotate_peaks ui)
                             (w_annotate_aperiodic ui) true with
  | Raise e => (Raise e, sidebar_drawn, plotting)
  | Ok ax_log =>
  match index_first (aperiodic_params_ L fm) with
  | Raise e =>
      (Raise e, sidebar_drawn ++ [(ColLeft, Pyplot ax_linear ax_log)],
       plotting)
  | Ok offset =>
  match index_last (aperiodic_params_ L fm) with
  | Raise e =>
      (Raise e,
       sidebar_drawn ++ [(ColLeft, Pyplot ax_linear ax_log);
                         (ColRight, Metric "Offset" (round2 L offset))],
       plotting)
  | Ok exponent =>
  match peak_params_ L fm with
  | [] =>
      (Ok tt,
       sidebar_drawn ++ [(ColLeft, Pyplot ax_linear ax_log);
                         (ColRight, Metric "Offset" (round2 L offset));
                         (ColRight, Metric "Exponent" (round2 L exponent));
                         (Main, Markdown exercise_text)],
       plotting)
  | row :: _ =>
  match index_first row with
  | Raise e =>
      (Raise e,
       sidebar_drawn ++ [(ColLeft, Pyplot ax_linear ax_log);
                         (ColRight, Metric "Offset" (round2 L offset));
                         (ColRight, Metric "Exponent" (round2 L exponent))],
       plotting)
  | Ok cf =>
      (Ok tt,
       sidebar_drawn ++ [(ColLeft, Pyplot ax_linear ax_log);
                         (ColRight, Metric "Offset" (round2 L offset));
                         (ColRight, Metric "Exponent" (round2 L exponent));
                         (ColRight, Metric peak_label (round2 L cf));
                         (Main, Markdown exercise_text)],
       plotting)
  end end end end end end end end.
Proof.
  intros channel fitting plotting. subst plotting fitting channel.
  replace (sidebar_drawn (L:=L))
    with [(Sidebar, Widget (L:=L) "Channel");
          (Sidebar, Widget "Frequency range (Hz)");
          (Sidebar, Widget "Peak width limits (Hz)");
          (Sidebar, Widget "Maximal number of peaks");
          (Sidebar, Widget "Aperiodic mode");
          (Sidebar, Widget "Annotate peaks");
          (Sidebar, Widget "Annotate aperiodic")] by reflexivity.
  unfold interact, sidebar, fit, plot, render, index_00.
  outcome_steps; cbn [fst snd app]; reflexivity.
Qed.

Lemma interact_eq raw spec ui (s : Session L) :
  interact raw spec ui s
  = (interact_result raw spec ui,
     extend s (interact_drawn raw spec ui) (interact_log raw spec ui)).
Proof. apply framed_interact. Qed.

(** [load_data], case by case: a stored key is returned as it is;
    otherwise the file is read once, and stored if the read returns. *)
Lemma load_data_eq (path_to_data : option string) (s : Session L) :
  load_data path_to_data s =
  match raw_cache s !! path_to_data with
  | Some raw => (Ok raw, s)
  | None =>
      match path_to_file path_to_data with
      | Raise e => (Raise e, s)
      | Ok file =>
          match read_raw_fif L file with
          | Ok raw =>
              (Ok raw,
               Build_Session (<[path_to_data := raw]> (raw_cache s))
                 (spectrum_cache s) (screen s) (calls s ++ [CallRead file]))
          | Raise e =>
              (Raise e,
               Build_Session (raw_cache s) (spectrum_cache s) (screen s)
                 (calls s ++ [CallRead file]))
          end
      end
  end.
Proof.
  unfold load_data, cache_data, load_data_body, bind, lift, call, save_raw.
  destruct (raw_cache s !! path_to_data); [reflexivity|].
  destruct (path_to_file path_to_data); [|reflexivity].
  destruct (read_raw_fif L a); reflexivity.
Qed.

(** [get_spectrum], case by case: the one entry of its store is
    returned whatever [raw] is now; only when the store is empty is the
    spectrum of [raw] computed. *)
Lemma get_spectrum_eq (raw : Raw L) (s : Session L) :
  get_spectrum raw s =
  match spectrum_cache s !! () with
  | Some spec => (Ok spec, s)
  | None =>
      match compute_psd L raw with
      | Ok spec =>
          (Ok spec,
           Build_Session (raw_cache s) (<[() := spec]> (spectrum_cache s))
             (screen s) (calls s ++ [CallPsd]))
      | Raise e =>
          (Raise e,
           Build_Session (raw_cache s) (spectrum_cache s) (screen s)
             (calls s ++ [CallPsd]))
      end
  end.
Proof.
  unfold get_spectrum, cache_data, call, save_spectrum.
  destruct (spectrum_cache s !! ()); [reflexivity|].
  destruct (compute_psd L raw); reflexivity.
Qed.

(** The file as three stages: what is drawn first, the two cached
    loads, and the part that depends on the widgets. *)
Lemma script_eq (path_to_data : option string) (ui : Widgets)
    (s : Session L) :
  script path_to_data ui s =
  match load_data path_to_data (extend s (intro_elements path_to_data) [])
  with
  | (Raise e, s1) => (Raise e, s1)
  | (Ok raw, s1) =>
      match get_spectrum raw s1 with
      | (Raise e, s2) => (Raise e, s2)
      | (Ok spec, s2) => interact raw spec ui s2
      end
  end.
Proof.
  unfold script, intro_elements, extend.
  unfold bind at 1 2. unfold header, step0, bind, emit, ret.
  destruct path_to_data; simpl; rewrite app_nil_r, <- !app_assoc; simpl;
    reflexivity.
Qed.

End Stages.

Ltac session_simpl :=
  cbn [fst snd Fooof.extend Fooof.rerun Fooof.raw_cache Fooof.spectrum_cache
       Fooof.screen Fooof.calls].

(** Unfolds a run stage by stage and splits on every stored key and every
    library outcome it meets. *)
Ltac run_cases :=
  repeat (session_simpl;
    match goal with
    | |- context [Fooof.run _ _ _] => unfold Fooof.run
    | |- context [Fooof.script _ _ _] => rewrite script_eq
    | |- context [Fooof.load_data _ _] => rewrite load_data_eq
    | |- context [Fooof.get_spectrum _ _] => rewrite get_spectrum_eq
    | |- context [Fooof.interact _ _ _ _] => rewrite interact_eq
    | H : ?x = _ |- context [match ?x with _ => _ end] => rewrite H
    | |- context [<[?k:=_]> _ !! ?k] => rewrite lookup_insert_eq
    | |- context [match ?x with _ => _ end] =>
        lazymatch x with
        | Fooof.raw_cache ?v !! _ => is_var v
        | Fooof.spectrum_cache ?v !! _ => is_var v
        | Fooof.path_to_file _ => idtac
        | Fooof.read_raw_fif _ _ => idtac
        | Fooof.compute_psd _ _ => idtac
        | Fooof.interact_result _ _ _ => idtac
        end;
        destruct x eqn:?
    end);
  session_simpl; try congruence.

(** ** Claims about the FOOOF app *)

Section Claims.
Import Fooof.
Context {L : Library}.

Lemma rerun_stable (path_to_data : option string) (ui : Widgets)
    (s : Session L) :
  let out1 := run path_to_data ui s in
  let out2 := run path_to_data ui (snd out1) in
  fst out2 = fst out1
  /\ screen (snd out2) = screen (snd out1)
  /\ raw_cache (snd out2) = raw_cache (snd out1)
  /\ spectrum_cache (snd out2) = spectrum_cache (snd out1).
Proof.
  intros out1 out2. subst out2 out1. run_cases; auto.
Qed.

Lemma count_app (p : Call -> bool) (l1 l2 : list Call) :
  count p (l1 ++ l2) = (count p l1 + count p l2)%nat.
Proof.
  induction l1 as [|c l1 IH]; simpl; [reflexivity|].
  rewrite IH. destruct (p c); reflexivity.
Qed.

Ltac interact_cases :=
  rewrite interact_outcome; cbv zeta;
  repeat match goal with
         | |- context [match ?x with _ => _ end] => destruct x eqn:?
         end.

(** STEPS 2 to 5 read no file and compute no spectrum, and fit at most
    once. *)
Lemma interact_log_quiet (raw : Raw L) (spec : Spectrum L) (ui : Widgets) :
  (forall file, count (is_read file) (interact_log raw spec ui) = 0%nat)
  /\ count is_psd (interact_log raw spec ui) = 0%nat
  /\ (count is_fit (interact_log raw spec ui) <= 1)%nat.
Proof.
  change (interact_log raw spec ui)
    with (snd (outcome (interact raw spec ui))).
  interact_cases; simpl; repeat split; intros; lia.
Qed.

(** Running the file twice in a row with the same path and the same
    widget values ends the same way and draws the same screen, hence
    the same figure and the same metrics, whatever the session was
    before; the stores are as the first run left them. *)
Lemma rerun_same_inputs (path_to_data : option string) (ui : Widgets)
    (s : Session L) :
  let out1 := run path_to_data ui s in
  let out2 := run path_to_data ui (snd out1) in
  fst out2 = fst out1
  /\ metrics (screen (snd out2)) = metrics (screen (snd out1))
  /\ figures (screen (snd out2)) = figures (screen (snd out1))
  /\ screen (snd out2) = screen (snd out1)
  /\ raw_cache (snd out2) = raw_cache (snd out1)
  /\ spectrum_cache (snd out2) = spectrum_cache (snd out1).
Proof.
  intros out1 out2.
  destruct (rerun_stable path_to_data ui s) as (Hr & Hs & Hrc & Hsc).
  cbv zeta in Hr, Hs, Hrc, Hsc. subst out2 out1.
  rewrite Hs. repeat split; assumption.
Qed.

(** *** Reading screens *)

Lemma metrics_app (a b : list (Place * Element L)) :
  metrics (a ++ b) = metrics a ++ metrics b.
Proof.
  induction a as [|[w e] a IH]; simpl; [reflexivity|].
  destruct e; simpl; rewrite IH; reflexivity.
Qed.

Lemma figures_app (a b : list (Place * Element L)) :
  figures (a ++ b) = figures a ++ figures b.
Proof.
  induction a as [|[w e] a IH]; simpl; [reflexivity|].
  destruct e; simpl; rewrite IH; reflexivity.
Qed.

Lemma warnings_app (a b : list (Place * Element L)) :
  warnings (a ++ b) = warnings a ++ warnings b.
Proof.
  induction a as [|[w e] a IH]; simpl; [reflexivity|].
  destruct e; simpl; rewrite IH; reflexivity.
Qed.

Lemma intro_elements_plain (path_to_data : option string) :
  metrics (intro_elements (L:=L) path_to_data) = []
  /\ figures (intro_elements (L:=L) path_to_data) = []
  /\ warnings (intro_elements (L:=L) path_to_data)
     = match path_to_data with
       | None => [warning_text]
       | Some _ => []
       end.
Proof. destruct path_to_data; repeat split; reflexivity. Qed.

Lemma interact_parts raw spec ui :
  outcome (interact (L:=L) raw spec ui)
  = (interact_result raw spec ui, interact_drawn raw spec ui,
     interact_log raw spec ui).
Proof. reflexivity. Qed.

(** A run that finds both stores filled is STEPS 2 to 5 on the stored
    recording and spectrum. *)
Lemma run_warm path_to_data ui (s : Session L) raw spec :
  raw_cache s !! path_to_data = Some raw ->
  spectrum_cache s !! () = Some spec ->
  run path_to_data ui s
  = (interact_result raw spec ui,
     Build_Session (raw_cache s) (spectrum_cache s)
       (intro_elements path_to_data ++ interact_drawn raw spec ui)
       (calls s ++ interact_log raw spec ui)).
Proof.
  intros Hrc Hsc. run_cases. unfold extend. session_simpl.
  rewrite ?app_nil_r, ?app_nil_l. reflexivity.
Qed.

Lemma index_last_some {A} (x : A) (arr : list A) :
  exists y, index_last (x :: arr) = Ok y.
Proof.
  revert x. induction arr as [|z arr IH]; intros x; [by exists x|].
  destruct (IH z) as [y Hy]. exists y. exact Hy.
Qed.

Lemma first_peak_none (fm : Fm L) :
  well_formed fm -> (first_peak fm = None <-> peak_params_ L fm = []).
Proof.
  intros [_ Hrows]. unfold first_peak.
  destruct (peak_params_ L fm) as [|row rows]; [tauto|].
  apply Forall_cons in Hrows as [Hrow _].
  destruct row as [|cf row]; [discriminate|]. split; discriminate.
Qed.

(** STEP 5 on a well-formed fitted model, in full. *)
Lemma render_well_formed (fig : Axes L * Axes L) (fm : Fm L)
    (s : Session L) :
  well_formed fm ->
  exists offset exponent,
    index_first (aperiodic_params_ L fm) = Ok offset
    /\ index_last (aperiodic_params_ L fm) = Ok exponent
    /\ render fig fm s
       = (Ok tt,
          extend s
            ([(ColLeft, Pyplot (fst fig) (snd fig));
              (ColRight, Metric "Offset" (round2 L offset));
              (ColRight, Metric "Exponent" (round2 L exponent))]
             ++ match first_peak fm with
                | Some cf => [(ColRight, Metric peak_label (round2 L cf))]
                | None => []
                end)
            [])
    /\ (first_peak fm = None <-> peak_params_ L fm = []).
Proof.
  intros [Hap Hrows].
  destruct (aperiodic_params_ L fm) as [|offset rest] eqn:Eap;
    [congruence|].
  destruct (index_last_some offset rest) as [exponent Hlast].
  exists offset, exponent. split; [reflexivity|]. split; [exact Hlast|].
  assert (Hout : outcome (render fig fm)
            = (Ok tt,
               [(ColLeft, Pyplot (fst fig) (snd fig));
                (ColRight, Metric "Offset" (round2 L offset));
                (ColRight, Metric "Exponent" (round2 L exponent))]
               ++ match first_peak fm with
                  | Some cf => [(ColRight, Metric peak_label (round2 L cf))]
                  | None => []
                  end, [])
          /\ (first_peak fm = None <-> peak_params_ L fm = [])).
  { unfold render, index_00, first_peak. rewrite Eap, <- Eap.
    destruct (peak_params_ L fm) as [|row rows] eqn:Epk.
    - split; [|tauto]. outcome_steps; rewrite Eap in *; simpl in *;
        congruence.
    - apply Forall_cons in Hrows as [Hrow _].
      destruct row as [|cf row]; [discriminate|].
      split; [|split; discriminate].
      outcome_steps; rewrite Eap in *; simpl in *; congruence. }
  destruct Hout as [Hout Hpeak]. split; [|exact Hpeak].
  rewrite (framed_render fig fm s).
  unfold outcome in Hout. injection Hout as -> -> ->. reflexivity.
Qed.

(** C5, as the code has it. For a well-formed fitted model, STEP 5
    returns in every session: it draws the figure and the metrics Offset
    and Exponent, rounded to two decimals, and as third metric the first
    peak's frequency when the model has a peak; with no peak the third
    metric is left out and nothing is raised. Drawing what was fitted does
    not raise when the fit and the two plots return and the model is
    well-formed; when the fit raises, which it can for values the widgets
    deliver, drawing what was fitted ends with that exception. *)
Theorem render_never_raises :
  (forall fm : Fm L,
     well_formed fm ->
     (forall fig (s : Session L),
        exists offset exponent,
          index_first (aperiodic_params_ L fm) = Ok offset
          /\ index_last (aperiodic_params_ L fm) = Ok exponent
          /\ render fig fm s
             = (Ok tt,
                extend s
                  ([(ColLeft, Pyplot (fst fig) (snd fig));
                    (ColRight, Metric "Offset" (round2 L offset));
                    (ColRight, Metric "Exponent" (round2 L exponent))]
                   ++ match first_peak fm with
                      | Some cf =>
                          [(ColRight, Metric peak_label (round2 L cf))]
                      | None => []
                      end)
                  []))
     /\ (first_peak fm = None <-> peak_params_ L fm = [])
     /\ (forall spec channel ui fig (s s1 s2 : Session L),
           fit spec channel ui s = (Ok fm, s1) ->
           plot fm ui s1 = (Ok fig, s2) ->
           fit_then_render spec channel ui s = render fig fm s2
           /\ fst (fit_then_render spec channel ui s) = Ok tt))
  /\ (forall spec channel ui (s s1 : Session L) e,
        fit spec channel ui s = (Raise e, s1) ->
        fit_then_render spec channel ui s = (Raise e, s1)).
Proof.
  split.
  - intros fm Hwf. split; [|split].
    + intros fig s.
      destruct (render_well_formed fig fm s Hwf)
        as (o & x & Ho & Hx & Hr & _).
      exists o, x. auto.
    + apply first_peak_none, Hwf.
    + intros spec channel ui fig s s1 s2 Hfit Hplot.
      assert (Heq : fit_then_render spec channel ui s = render fig fm s2).
      { unfold fit_then_render, bind. rewrite Hfit, Hplot. reflexivity. }
      split; [exact Heq|]. rewrite Heq.
      destruct (render_well_formed fig fm s2 Hwf)
        as (o & x & _ & _ & Hr & _).
      rewrite Hr. reflexivity.
  - intros spec channel ui s s1 e Hfit.
    unfold fit_then_render, bind. rewrite Hfit. reflexivity.
Qed.

(** *** STEPS 2 to 5, end by end *)

Ltac interact_ends raw spec ui :=
  let Hio := fresh "Hio" in
  pose proof (interact_outcome raw spec ui) as Hio;
  rewrite interact_parts in Hio; cbv zeta in Hio;
  repeat match goal with
         | H : ?x = _ |- _ =>
             match type of Hio with
             | context [match x with _ => _ end] => rewrite H in Hio
             end
         end;
  repeat match type of Hio with
         | context [match ?x with _ => _ end] => destruct x eqn:?
         end;
  let Hres := fresh "Hres" in
  let Hdrawn := fresh "Hdrawn" in
  let Hlog := fresh "Hlog" in
  injection Hio as Hres Hdrawn Hlog;
  rewrite ?Hres, ?Hdrawn, ?Hlog; clear Hres Hdrawn Hlog.

(** The fit raises: STEPS 2 to 5 end with its exception, with the
    sidebar drawn and nothing else. *)
Lemma interact_fit_raises raw spec ui pf e :
  get_data L spec (selectbox (meeg_ch_names_of L raw) (w_channel ui))
    = Ok pf ->
  fooof_fit L (settings_of ui) (snd pf) (squeeze L (fst pf)) (w_f_range ui)
    = Raise e ->
  interact_result raw spec ui = Raise e
  /\ interact_drawn raw spec ui = sidebar_drawn
  /\ interact_log raw spec ui
     = [CallGetData (selectbox (meeg_ch_names_of L raw) (w_channel ui));
        CallFit (settings_of ui) (w_f_range ui)].
Proof. intros Hget Hfit. interact_ends raw spec ui. auto. Qed.

(** Once the channel's spectrum is extracted, the fit is called, once,
    with the widgets' values of this run. *)
Lemma interact_log_fit raw spec ui pf :
  get_data L spec (selectbox (meeg_ch_names_of L raw) (w_channel ui))
    = Ok pf ->
  exists rest,
    interact_log raw spec ui
    = CallGetData (selectbox (meeg_ch_names_of L raw) (w_channel ui))
      :: CallFit (settings_of ui) (w_f_range ui) :: rest
    /\ count is_fit rest = 0%nat.
Proof.
  intros Hget. interact_ends raw spec ui; eexists; split;
    try reflexivity; reflexivity.
Qed.

(** STEPS 2 to 5 return: the figure and the metrics of this run's fit
    are on the screen. *)
Lemma interact_ok_metrics raw spec ui pf fm :
  get_data L spec (selectbox (meeg_ch_names_of L raw) (w_channel ui))
    = Ok pf ->
  fooof_fit L (settings_of ui) (snd pf) (squeeze L (fst pf)) (w_f_range ui)
    = Ok fm ->
  interact_result raw spec ui = Ok tt ->
  exists offset exponent,
    index_first (aperiodic_params_ L fm) = Ok offset
    /\ index_last (aperiodic_params_ L fm) = Ok exponent
    /\ metrics (interact_drawn raw spec ui)
       = ("Offset", round2 L offset) :: ("Exponent", round2 L exponent)
         :: match first_peak fm with
            | Some cf => [(peak_label, round2 L cf)]
            | None => []
            end.
Proof.
  intros Hget Hfit. interact_ends raw spec ui; intros Hres;
    try discriminate; eexists _, _; (split; [reflexivity|]);
    (split; [reflexivity|]); unfold first_peak;
    cbn [metrics]; rewrite Heql.
  - reflexivity.
  - destruct l; [discriminate|]. simpl in *. congruence.
Qed.

(** Whatever the libraries do, STEPS 2 to 5 end in one of two ways:
    with an exception, or with the figure and at least the metrics
    Offset and Exponent drawn. *)
Lemma interact_ok_shows_fit raw spec ui :
  interact_result (L:=L) raw spec ui = Ok tt ->
  exists fig offset exponent rest,
    figures (interact_drawn raw spec ui) = [fig]
    /\ metrics (interact_drawn raw spec ui)
       = ("Offset", offset) :: ("Exponent", exponent) :: rest.
Proof.
  interact_ends raw spec ui; intros Hres; try discriminate;
    cbn [metrics figures]; do 4 eexists; split; reflexivity.
Qed.

Lemma load_data_screen path_to_data (s s1 : Session L) r :
  load_data path_to_data s = (r, s1) -> screen s1 = screen s.
Proof.
  rewrite load_data_eq. intros H.
  repeat match type of H with
         | context [match ?x with _ => _ end] => destruct x
         end; injection H as _ <-; reflexivity.
Qed.

Lemma get_spectrum_screen raw (s s1 : Session L) r :
  get_spectrum raw s = (r, s1) -> screen s1 = screen s.
Proof.
  rewrite get_spectrum_eq. intros H.
  repeat match type of H with
         | context [match ?x with _ => _ end] => destruct x
         end; injection H as _ <-; reflexivity.
Qed.

(** A run in which both loads return is STEPS 2 to 5 on what they
    returned, drawn under the title block. *)
Lemma run_reaching path_to_data ui (s s1 s2 : Session L) raw spec :
  load_data path_to_data (start path_to_data s) = (Ok raw, s1) ->
  get_spectrum raw s1 = (Ok spec, s2) ->
  run path_to_data ui s
  = (interact_result raw spec ui,
     extend s2 (interact_drawn raw spec ui) (interact_log raw spec ui))
  /\ screen s2 = intro_elements path_to_data.
Proof.
  intros Hload Hspec. unfold start in Hload. split.
  - unfold run. rewrite script_eq, Hload, Hspec. apply interact_eq.
  - rewrite (get_spectrum_screen _ _ _ _ Hspec),
      (load_data_screen _ _ _ _ Hload). reflexivity.
Qed.

(** C8. In every run in which the two loads return, whether from the
    stores or not, the spectrum of the channel picked in this run is
    extracted and the fit is called, exactly once, with the peak width
    limits, the maximal number of peaks, the aperiodic mode and the
    frequency range the widgets hold in this run; the metrics on the
    screen of a run that returns are those of that fit, and a fit that
    raises ends the run. *)
Theorem fit_is_fresh path_to_data ui (s s1 s2 : Session L) raw spec :
  load_data path_to_data (start path_to_data s) = (Ok raw, s1) ->
  get_spectrum raw s1 = (Ok spec, s2) ->
  let channel := meeg_ch_names_of L raw !! w_channel ui in
  let settings := {| peak_width_limits := w_peak_width ui;
                     max_n_peaks := w_max_n_peaks ui;
                     aperiodic_mode := w_aperiodic_mode ui |} in
  let out := run path_to_data ui s in
  (forall pf, get_data L spec channel = Ok pf ->
     exists rest,
       calls (snd out)
       = calls s2 ++ CallGetData channel
                     :: CallFit settings (w_f_range ui) :: rest
       /\ count is_fit rest = 0%nat)
  /\ (forall pf fm,
        get_data L spec channel = Ok pf ->
        fooof_fit L settings (snd pf) (squeeze L (fst pf)) (w_f_range ui)
          = Ok fm ->
        fst out = Ok tt ->
        exists offset exponent,
          index_first (aperiodic_params_ L fm) = Ok offset
          /\ index_last (aperiodic_params_ L fm) = Ok exponent
          /\ metrics (screen (snd out))
             = ("Offset", round2 L offset)
               :: ("Exponent", round2 L exponent)
               :: match first_peak fm with
                  | Some cf => [(peak_label, round2 L cf)]
                  | None => []
                  end)
  /\ (forall pf e,
        get_data L spec channel = Ok pf ->
        fooof_fit L settings (snd pf) (squeeze L (fst pf)) (w_f_range ui)
          = Raise e ->
        fst out = Raise e).
Proof.
  intros Hload Hspec channel settings out.
  destruct (run_reaching path_to_data ui s s1 s2 raw spec Hload Hspec)
    as [Hrun Hscr].
  subst out. rewrite Hrun. unfold extend. session_simpl. rewrite Hscr.
  change channel with (selectbox (meeg_ch_names_of L raw) (w_channel ui)).
  change settings with (settings_of ui).
  split; [|split].
  - intros pf Hget.
    destruct (interact_log_fit raw spec ui pf Hget) as (rest & -> & Hc).
    exists rest. split; [reflexivity | exact Hc].
  - intros pf fm Hget Hfit Hok.
    destruct (interact_ok_metrics raw spec ui pf fm Hget Hfit Hok)
      as (offset & exponent & Ho & He & Hm).
    exists offset, exponent. repeat split; try assumption.
    rewrite metrics_app, (proj1 (intro_elements_plain _)), Hm.
    reflexivity.
  - intros pf e Hget Hfit.
    apply (interact_fit_raises raw spec ui pf e Hget Hfit).
Qed.


(** C3, as the code has it. The file has no handler around the fit: in
    a run in which the two loads return, a fit that raises ends the run
    with its exception, with neither figure nor metrics on the screen;
    and a run that returns has drawn the figure and the metrics Offset
    and Exponent. There is no third way for a run to end. *)
Theorem fit_error_propagates path_to_data ui (s s1 s2 : Session L)
    raw spec :
  load_data path_to_data (start path_to_data s) = (Ok raw, s1) ->
  get_spectrum raw s1 = (Ok spec, s2) ->
  let channel := selectbox (meeg_ch_names_of L raw) (w_channel ui) in
  let out := run path_to_data ui s in
  (forall pf e,
     get_data L spec channel = Ok pf ->
     fooof_fit L (settings_of ui) (snd pf) (squeeze L (fst pf))
               (w_f_range ui) = Raise e ->
     fst out = Raise e
     /\ metrics (screen (snd out)) = []
     /\ figures (screen (snd out)) = [])
  /\ (fst out = Ok tt ->
      exists fig offset exponent rest,
        figures (screen (snd out)) = [fig]
        /\ metrics (screen (snd out))
           = ("Offset", offset) :: ("Exponent", exponent) :: rest).
Proof.
  intros Hload Hspec channel out.
  destruct (run_reaching path_to_data ui s s1 s2 raw spec Hload Hspec)
    as [Hrun Hscr].
  subst out. rewrite Hrun. unfold extend. session_simpl. rewrite Hscr.
  rewrite metrics_app, figures_app.
  destruct (intro_elements_plain path_to_data) as (-> & -> & _).
  split.
  - intros pf e Hget Hfit.
    destruct (interact_fit_raises raw spec ui pf e Hget Hfit)
      as (-> & -> & _).
    repeat split; reflexivity.
  - intros Hok. apply (interact_ok_shows_fit raw spec ui Hok).
Qed.

(** C6, as the code has it. When the path is not in the store and
    cannot be loaded, the run ends at [load_data] with the title block
    (and the one warning of the file, for [None]) as its whole screen: no
    widget, no figure, no metric and no closing text are drawn, nothing
    is stored and nothing is tried a second time. The run ends with
    [TypeError], after the warning and without a read, when
    [path_to_data] is [None]; and with the reader's exception, after one
    read and without any warning, when the file cannot be read. *)
Theorem unresolved_path_ends_run path_to_data ui (s : Session L) :
  raw_cache s !! path_to_data = None ->
  let out := run path_to_data ui s in
  (path_to_data = None ->
     fst out = Raise TypeError
     /\ screen (snd out)
        = (Main, Title "FOOOF")
          :: map (fun link => (Expander, Markdown link)) links
          ++ [(Main, Warning warning_text)]
     /\ warnings (screen (snd out)) = [warning_text]
     /\ calls (snd out) = calls s
     /\ widgets (screen (snd out)) = []
     /\ metrics (screen (snd out)) = []
     /\ figures (screen (snd out)) = []
     /\ raw_cache (snd out) = raw_cache s
     /\ spectrum_cache (snd out) = spectrum_cache s)
  /\ (forall file e,
        path_to_file path_to_data = Ok file ->
        read_raw_fif L file = Raise e ->
        fst out = Raise e
        /\ screen (snd out)
           = (Main, Title "FOOOF")
             :: map (fun link => (Expander, Markdown link)) links
        /\ warnings (screen (snd out)) = []
        /\ calls (snd out) = calls s ++ [CallRead file]
        /\ widgets (screen (snd out)) = []
        /\ metrics (screen (snd out)) = []
        /\ figures (screen (snd out)) = []
        /\ raw_cache (snd out) = raw_cache s
        /\ spectrum_cache (snd out) = spectrum_cache s).
Proof.
  intros Hrc out. subst out. unfold run.
  rewrite script_eq, load_data_eq. session_simpl. rewrite Hrc.
  split.
  - intros ->. simpl path_to_file. session_simpl.
    rewrite app_nil_r. repeat split; reflexivity.
  - intros file e Hfile Hread. rewrite Hfile, Hread. session_simpl.
    rewrite app_nil_r. destruct path_to_data; [|discriminate].
    repeat split; reflexivity.
Qed.

(** Once a spectrum is stored, [get_spectrum] returns it for every
    recording: the store has one key. *)
Lemma get_spectrum_keyless (raw raw' : Raw L) (s s1 : Session L) spec :
  get_spectrum raw s = (Ok spec, s1) ->
  get_spectrum raw' s1 = (Ok spec, s1)
  /\ spectrum_cache s1 !! () = Some spec.
Proof.
  rewrite !get_spectrum_eq. intros H.
  destruct (spectrum_cache s !! ()) as [v|] eqn:Hsc.
  - injection H as -> ->. rewrite Hsc. auto.
  - destruct (compute_psd L raw); [|discriminate].
    injection H as -> <-. session_simpl.
    rewrite lookup_insert_eq. auto.
Qed.

End Claims.

(** ** The claims on the stand-in libraries *)

Section Demonstrations.
Import Fooof.

Example minimal_wave3 : Minimal.string_creator "ab" 3 = "ababab".
Proof. reflexivity. Qed.

Example solved_square2 :
  MinimalSolved.string_creator "x" 2 "p" true
  = "p:" +:+ Py.nl +:+ "xx" +:+ Py.nl +:+ "xx".
Proof. reflexivity. Qed.

Example solved_negative :
  MinimalSolved.string_creator "x" (-4) "" true = "".
Proof. reflexivity. Qed.

Example first_run_on_A :
  let out := run (L:=Demo.library false) (Some "A") Demo.ui blank in
  fst out = Ok tt
  /\ metrics (screen (snd out))
     = [("Offset", 101); ("Exponent", 45); (peak_label, 10)]
  /\ calls (snd out)
     = [CallRead "A/sub-01/sub-01-raw.fif"; CallPsd;
        CallGetData (Some "EEG039");
        CallFit (settings_of Demo.ui) (1, 45);
        CallPlot false; CallPlot true].
Proof. vm_compute. repeat split; reflexivity. Qed.

Example shipped_file_warns_then_stops :
  let out := run (L:=Demo.library false) None Demo.ui blank in
  fst out = Raise TypeError
  /\ warnings (screen (snd out)) = [warning_text]
  /\ calls (snd out) = [].
Proof. vm_compute. repeat split; reflexivity. Qed.

End Demonstrations.

Lemma render_never_raises_witness :
  fst (Fooof.render (L:=Fooof.Demo.library false) (false, true)
         ([101; 45], [[10; 1; 2]]) Fooof.blank) = Fooof.Ok tt
  /\ fst (Fooof.fit_then_render (L:=Fooof.Demo.library false) 100
            (Some "EEG039") Fooof.Demo.ui Fooof.blank) = Fooof.Ok tt.
Proof.
  assert (Hwf : Fooof.well_formed (L:=Fooof.Demo.library false)
                  ([101; 45], [[10; 1; 2]]))
    by (split; [discriminate | repeat constructor]).
  destruct (proj1 (render_never_raises (L:=Fooof.Demo.library false))
              ([101; 45], [[10; 1; 2]]) Hwf)
    as (Hrender & _ & Hboth).
  split.
  - destruct (Hrender (false, true) Fooof.blank)
      as (offset & exponent & _ & _ & H).
    rewrite H. reflexivity.
  - refine (proj2 (Hboth 100 (Some "EEG039") Fooof.Demo.ui (false, true)
                     Fooof.blank _ _ _ _)).
    + vm_compute. reflexivity.
    + vm_compute. reflexivity.
Defined.

Lemma fit_is_fresh_witness :
  exists rest,
    Fooof.calls (snd (Fooof.run (Some "A") Fooof.Demo.ui_high
                        (Fooof.Demo.after false "A")))
    = Fooof.calls (Fooof.start (Some "A") (Fooof.Demo.after false "A"))
      ++ Fooof.CallGetData (Some "EEG039")
         :: Fooof.CallFit
              {| Fooof.peak_width_limits := (1 # 2, 12 # 1)%Q;
                 Fooof.max_n_peaks := 3;
                 Fooof.aperiodic_mode := Fooof.knee |} (20, 45)
         :: rest
    /\ Fooof.count Fooof.is_fit rest = 0%nat.
Proof.
  refine (proj1 (fit_is_fresh (L:=Fooof.Demo.library false) (Some "A")
                   Fooof.Demo.ui_high (Fooof.Demo.after false "A")
                   (Fooof.start (Some "A") (Fooof.Demo.after false "A"))
                   (Fooof.start (Some "A") (Fooof.Demo.after false "A"))
                   1 100 _ _) (100, tt) eq_refl).
  - vm_compute. reflexivity.
  - vm_compute. reflexivity.
Defined.

(** C9. With an empty prefix and [make_square = False] the solved
    [string_creator] returns what the minimal example's [string_creator]
    returns, for every symbol and every length. *)
Theorem solved_refines_minimal (symbol : string) (length : Z) :
  MinimalSolved.string_creator symbol length "" false
  = Minimal.string_creator symbol length.
Proof.
  unfold MinimalSolved.string_creator, Minimal.string_creator.
  (* make_square is off and the empty prefix is falsy *)
  cbn [Py.truthy]. reflexivity.
Qed.

(** C10. For a length [n >= 0] the solved [string_creator] returns a body,
    preceded by the prefix, a colon and a newline exactly when the prefix
    is not empty. The body is the symbol [n] times when [make_square] is
    off, and [n] rows of the symbol [n] times joined by newlines when it is
    on: cut at the newlines, the square gives back those [n] rows. *)
Theorem string_creator_correct (symbol : string) (n : nat) (prefix : string)
    (make_square : bool) :
  let row := Py.str_repeat symbol n in
  let body :=
    if make_square then Py.join Py.nl (replicate n row) else row in
  let out :=
    MinimalSolved.string_creator symbol (Z.of_nat n) prefix make_square in
  (prefix = "" -> out = body)
  /\ (prefix <> "" -> out = prefix +:+ ":" +:+ Py.nl +:+ body)
  /\ Py.len row = (n * Py.len symbol)%nat
  /\ (make_square = true -> (0 < n)%nat ->
      Py.has_char (Ascii.ascii_of_nat 10) symbol = false ->
      Py.split_on (Ascii.ascii_of_nat 10) body = replicate n row).
Proof.
  intros row body out.
  assert (Hout : out = if Py.truthy prefix
                       then prefix +:+ ":" +:+ Py.nl +:+ body else body).
  { subst out body row. unfold MinimalSolved.string_creator, Py.str_mul.
    rewrite list_mul_singleton, Nat2Z.id. reflexivity. }
  repeat split.
  - intros ->. exact Hout.
  - intros Hne. rewrite Hout. destruct prefix; [congruence | reflexivity].
  - apply str_repeat_len.
  - intros -> Hn Hsym. subst body. unfold Py.nl. apply split_on_join.
    + destruct n; [lia | discriminate].
    + apply Forall_forall. intros r Hr.
      apply elem_of_replicate in Hr as [-> _].
      apply has_char_repeat, Hsym.
Qed.

Lemma string_creator_correct_witness :
  MinimalSolved.string_creator "ab" 2 "p" true
    = "p" +:+ ":" +:+ Py.nl +:+ Py.join Py.nl ["abab"; "abab"]
  /\ Py.split_on (Ascii.ascii_of_nat 10) (Py.join Py.nl ["abab"; "abab"])
     = ["abab"; "abab"].
Proof.
  destruct (string_creator_correct "ab" 2 "p" true) as (_ & Hpre & _ & Hcut).
  split.
  - apply Hpre. discriminate.
  - apply Hcut; [reflexivity | lia | reflexivity].
Defined.


Lemma fit_error_propagates_witness :
  let out := Fooof.run (L:=Fooof.Demo.library false) (Some "C")
               Fooof.Demo.ui Fooof.blank in
  fst out = Fooof.Raise (Fooof.LibraryError "FitError")
  /\ Fooof.metrics (Fooof.screen (snd out)) = []
  /\ Fooof.figures (Fooof.screen (snd out)) = [].
Proof.
  pose (s1 := snd (Fooof.load_data (L:=Fooof.Demo.library false) (Some "C")
                     (Fooof.start (Some "C") Fooof.blank))).
  pose (s2 := snd (Fooof.get_spectrum (L:=Fooof.Demo.library false) 3 s1)).
  refine (proj1 (fit_error_propagates (L:=Fooof.Demo.library false)
                   (Some "C") Fooof.Demo.ui Fooof.blank s1 s2 3 300 _ _)
            (300, tt) (Fooof.LibraryError "FitError") eq_refl eq_refl).
  - vm_compute. reflexivity.
  - vm_compute. reflexivity.
Defined.

Lemma unresolved_path_ends_run_witness :
  let out := Fooof.run (L:=Fooof.Demo.library false) (Some "nowhere")
               Fooof.Demo.ui Fooof.blank in
  fst out = Fooof.Raise Fooof.FileNotFoundError
  /\ Fooof.screen (snd out)
     = (Fooof.Main, Fooof.Title "FOOOF")
       :: map (fun link => (Fooof.Expander, Fooof.Markdown link))
              Fooof.links
  /\ Fooof.warnings (Fooof.screen (snd out)) = []
  /\ Fooof.calls (snd out)
     = Fooof.calls (Fooof.blank (L:=Fooof.Demo.library false))
       ++ [Fooof.CallRead "nowhere/sub-01/sub-01-raw.fif"]
  /\ Fooof.widgets (Fooof.screen (snd out)) = []
  /\ Fooof.metrics (Fooof.screen (snd out)) = []
  /\ Fooof.figures (Fooof.screen (snd out)) = []
  /\ Fooof.raw_cache (snd out) = Fooof.raw_cache Fooof.blank
  /\ Fooof.spectrum_cache (snd out) = Fooof.spectrum_cache Fooof.blank.
Proof.
  refine (proj2 (unresolved_path_ends_run (L:=Fooof.Demo.library false)
                   (Some "nowhere") Fooof.Demo.ui Fooof.blank _)
            "nowhere/sub-01/sub-01-raw.fif" Fooof.FileNotFoundError
            eq_refl eq_refl).
  vm_compute. reflexivity.
Defined.


(** C3, as the specification words it, fails on the code: on the
    recording whose fit raises, the run ends with that exception. *)
Lemma fit_error_not_recovered :
  ~ Fooof.recovers_from_fit_error (L:=Fooof.Demo.library false).
Proof.
  intros H.
  specialize (H (Some "C") Fooof.Demo.ui (Fooof.Demo.after false "C")
                3 300 (300, tt) (Fooof.LibraryError "FitError")).
  assert (H' := H ltac:(vm_compute; reflexivity) ltac:(vm_compute; reflexivity)
                  eq_refl eq_refl).
  vm_compute in H'. discriminate.
Qed.

(** C6, as the specification words it, fails on the code: with
    [path_to_data = None] the warning is drawn but the run ends with
    [TypeError], not with a not-found exception; and a directory without
    the file ends the run with the reader's exception while the file
    draws no warning. *)
Lemma unresolved_path_not_warned :
  ~ Fooof.unresolved_path_warned (L:=Fooof.Demo.library false)
  /\ fst (Fooof.run (L:=Fooof.Demo.library false) None Fooof.Demo.ui
            Fooof.blank) = Fooof.Raise Fooof.TypeError
  /\ Fooof.warnings
       (Fooof.screen
          (snd (Fooof.run (L:=Fooof.Demo.library false) (Some "nowhere")
                  Fooof.Demo.ui Fooof.blank))) = [].
Proof.
  split; [|split; vm_compute; reflexivity].
  intros H.
  destruct (H None Fooof.Demo.ui Fooof.blank) as [Herr _].
  - vm_compute. reflexivity.
  - intros file Hfile. discriminate.
  - vm_compute in Herr. discriminate.
Qed.

(** C2, on the code: a process runs the file on the recording under [A]
    and then, the path changed, on the recording under [B]. The second run
    loads the recording of [B] but computes no spectrum: [get_spectrum]
    returns the stored spectrum of [A], and the metrics shown are those of
    [A]'s spectrum, not those a new process shows for [B]. *)
Theorem stale_spectrum_after_path_change :
  let out2 := Fooof.run (Some "B") Fooof.Demo.ui (Fooof.Demo.after false "A") in
  let new_B := Fooof.run (L:=Fooof.Demo.library false) (Some "B")
                 Fooof.Demo.ui Fooof.blank in
  fst out2 = Fooof.Ok tt
  /\ Fooof.raw_cache (snd out2) !! Some "B" = Some 2
  /\ Fooof.count Fooof.is_psd (Fooof.calls (snd out2)) = 1%nat
  /\ Fooof.spectrum_cache (snd out2) !! () = Some 100
  /\ Fooof.compute_psd (Fooof.Demo.library false) 2 = Fooof.Ok 200
  /\ Fooof.metrics (Fooof.screen (snd out2))
     = [("Offset", 101); ("Exponent", 45); (Fooof.peak_label, 10)]
  /\ Fooof.metrics (Fooof.screen (snd new_B))
     = [("Offset", 201); ("Exponent", 45); (Fooof.peak_label, 10)].
Proof. vm_compute. repeat split; reflexivity. Qed.

(** * Beyond the claims *)

(** ** The toy apps *)

Section MoreStringCreator.

Lemma append_assoc (a b c : string) : (a +:+ b) +:+ c = a +:+ (b +:+ c).
Proof.
  induction a as [|x a IH]; [reflexivity|].
  change (String x ((a +:+ b) +:+ c) = String x (a +:+ (b +:+ c))).
  f_equal. exact IH.
Qed.

Lemma append_empty_r (a : string) : a +:+ "" = a.
Proof.
  induction a as [|x a IH]; [reflexivity|].
  change (String x (a +:+ "") = String x a). f_equal. exact IH.
Qed.

Lemma solved_unfold (symbol : string) (length : Z) (prefix : string)
    (make_square : bool) :
  MinimalSolved.string_creator symbol length prefix make_square
  = MinimalSolved.header prefix
    +:+ (if make_square
         then Py.join Py.nl (replicate (Z.to_nat length)
                               (Py.str_repeat symbol (Z.to_nat length)))
         else Py.str_repeat symbol (Z.to_nat length)).
Proof.
  unfold MinimalSolved.string_creator, MinimalSolved.header, Py.str_mul.
  rewrite list_mul_singleton.
  destruct (Py.truthy prefix); [|reflexivity].
  rewrite !append_assoc. reflexivity.
Qed.

Lemma join_replicate_last (sep row : string) (n : nat) :
  exists head, Py.join sep (replicate (S n) row) = head +:+ row
               /\ (n = 0%nat -> head = "").
Proof.
  induction n as [|n (head & IH & _)].
  - exists "". split; reflexivity.
  - exists (row +:+ sep +:+ head). split; [|discriminate].
    change (Py.join sep (replicate (S (S n)) row))
      with (row +:+ sep +:+ Py.join sep (replicate (S n) row)).
    rewrite IH, !append_assoc. reflexivity.
Qed.

Lemma join_replicate_len (sep row : string) (n : nat) :
  Py.len (Py.join sep (replicate n row))
  = (n * Py.len row + Nat.pred n * Py.len sep)%nat.
Proof.
  destruct n as [|n]; [reflexivity|].
  induction n as [|n IH]; [simpl; lia|].
  change (Py.join sep (replicate (S (S n)) row))
    with (row +:+ sep +:+ Py.join sep (replicate (S n) row)).
  rewrite !len_append, IH. simpl. lia.
Qed.

(** X1. With a length of zero or less both [string_creator]s produce no
    symbol at all: the minimal one returns the empty string, the solved
    one only the [prefix:] line, if there is a prefix, whether the square
    is asked for or not. *)
Theorem string_creator_nonpositive (symbol : string) (length : Z)
    (prefix : string) (make_square : bool) :
  length <= 0 ->
  Minimal.string_creator symbol length = ""
  /\ MinimalSolved.string_creator symbol length prefix make_square
     = MinimalSolved.header prefix.
Proof.
  intros Hlen. split.
  - unfold Minimal.string_creator, Py.str_mul.
    rewrite Z2Nat.nonpos by exact Hlen. reflexivity.
  - rewrite solved_unfold, Z2Nat.nonpos by exact Hlen.
    destruct make_square; simpl; apply append_empty_r.
Qed.

(** X2. For a length of one or less the [Make square] box changes
    nothing: the square of a single row is the row. *)
Theorem make_square_idle_up_to_one (symbol : string) (length : Z)
    (prefix : string) :
  length <= 1 ->
  MinimalSolved.string_creator symbol length prefix true
  = MinimalSolved.string_creator symbol length prefix false.
Proof.
  intros Hlen. rewrite !solved_unfold.
  assert (Hn : (Z.to_nat length = 0 \/ Z.to_nat length = 1)%nat) by lia.
  destruct Hn as [-> | ->]; reflexivity.
Qed.

(** X3. What the solved [string_creator] returns always starts with the
    [prefix:] line, if there is a prefix, and ends with what the minimal
    [string_creator] returns for the same symbol and length; between the
    two are the earlier rows of the square, and nothing when the square is
    off or the length is at most one. *)
Theorem solved_extends_minimal (symbol : string) (length : Z)
    (prefix : string) (make_square : bool) :
  exists rows,
    MinimalSolved.string_creator symbol length prefix make_square
    = MinimalSolved.header prefix +:+ rows
      +:+ Minimal.string_creator symbol length
    /\ (make_square = false \/ length <= 1 -> rows = "").
Proof.
  rewrite solved_unfold. unfold Minimal.string_creator, Py.str_mul.
  destruct make_square.
  - destruct (Z.to_nat length) as [|n] eqn:Hn.
    + exists "". split; [reflexivity | reflexivity].
    + destruct (join_replicate_last Py.nl
                  (Py.str_repeat symbol (S n)) n) as (head & -> & H0).
      exists head. split; [reflexivity|].
      intros [?|Hle]; [discriminate|]. apply H0. lia.
  - exists "". split; [reflexivity | reflexivity].
Qed.

(** X4. How long the results are: [n] symbols for the minimal
    [string_creator]; for the solved one the header ([prefix], a colon and
    a newline, or nothing) followed by [n] symbols, or by [n] rows of [n]
    symbols and the [n - 1] newlines between them. *)
Theorem string_creator_len (symbol : string) (length : Z) (prefix : string)
    (make_square : bool) :
  let n := Z.to_nat length in
  Py.len (Minimal.string_creator symbol length) = (n * Py.len symbol)%nat
  /\ Py.len (MinimalSolved.string_creator symbol length prefix make_square)
     = (Py.len (MinimalSolved.header prefix)
        + if make_square
          then n * (n * Py.len symbol) + Nat.pred n
          else n * Py.len symbol)%nat
  /\ Py.len (MinimalSolved.header prefix)
     = (if Py.truthy prefix then Py.len prefix + 2 else 0)%nat.
Proof.
  intros n. split; [apply str_repeat_len|]. split.
  - rewrite solved_unfold, len_append. f_equal. fold n.
    destruct make_square.
    + rewrite join_replicate_len, str_repeat_len.
      change (Py.len Py.nl) with 1%nat. lia.
    + apply str_repeat_len.
  - unfold MinimalSolved.header. destruct (Py.truthy prefix); [|reflexivity].
    rewrite !len_append. change (Py.len ":") with 1%nat.
    change (Py.len Py.nl) with 1%nat. lia.
Qed.

Lemma solved_split (symbol : string) (length : Z) (prefix : string)
    (make_square : bool) :
  let c := Ascii.ascii_of_nat 10 in
  let n := Z.to_nat length in
  let row := Py.str_repeat symbol n in
  Py.has_char c symbol = false ->
  Py.has_char c prefix = false ->
  Py.split_on c
    (MinimalSolved.string_creator symbol length prefix make_square)
  = (if Py.truthy prefix then [prefix +:+ ":"] else [])
    ++ (if make_square
        then match n with O => [""] | S _ => replicate n row end
        else [row]).
Proof.
  intros c n row Hsym Hpre.
  assert (Hrow : Py.has_char c row = false) by (apply has_char_repeat, Hsym).
  assert (Hbody : Py.split_on c
            (if make_square then Py.join Py.nl (replicate n row) else row)
          = if make_square
            then match n with O => [""] | S _ => replicate n row end
            else [row]).
  { destruct make_square; [|apply split_on_absent, Hrow].
    destruct n as [|k] eqn:Hn; [reflexivity|].
    apply (split_on_join c); [discriminate|].
    apply Forall_forall. intros r Hr.
    apply elem_of_replicate in Hr as [-> _]. exact Hrow. }
  rewrite solved_unfold. fold n row. rewrite <- Hbody.
  unfold MinimalSolved.header. destruct (Py.truthy prefix); [|reflexivity].
  set (body := if make_square then _ else _).
  replace ((prefix +:+ ":" +:+ Py.nl) +:+ body)
    with ((prefix +:+ ":") +:+ String c body)
    by (rewrite !append_assoc; reflexivity).
  rewrite split_on_cut; [reflexivity|].
  rewrite has_char_app, Hpre. reflexivity.
Qed.

(** X5. The lines of what the solved [string_creator] returns, for a
    symbol and a prefix without newline: the line [prefix:] if there is a
    prefix, then one row of [n] symbols, or [n] such rows for the square
    (one empty line when [n] is zero). *)
Theorem string_creator_lines (symbol : string) (length : Z) (prefix : string)
    (make_square : bool) :
  let c := Ascii.ascii_of_nat 10 in
  let n := Z.to_nat length in
  let row := Py.str_repeat symbol n in
  Py.has_char c symbol = false ->
  Py.has_char c prefix = false ->
  Py.split_on c
    (MinimalSolved.string_creator symbol length prefix make_square)
  = (if Py.truthy prefix then [prefix +:+ ":"] else [])
    ++ (if make_square
        then match n with O => [""] | S _ => replicate n row end
        else [row]).
Proof.
  intros c n row Hsym Hpre. subst c n row.
  apply solved_split; assumption.
Qed.

Lemma symbols_plain (symbol : string) :
  In symbol Ui.symbols ->
  symbol <> "" /\ Py.has_char (Ascii.ascii_of_nat 10) symbol = false.
Proof.
  intros [<-|[<-|[]]]; split; (discriminate || reflexivity).
Qed.

Lemma str_repeat_nonempty (symbol : string) (n : nat) :
  symbol <> "" -> (0 < n)%nat -> Py.str_repeat symbol n <> "".
Proof.
  intros Hs Hn. destruct n as [|k]; [lia|].
  destruct symbol; [congruence|]. discriminate.
Qed.

(** X6. Whatever its two widgets deliver (one of the two symbols, a
    length from 1 to 10), the minimal app draws exactly one text, which is
    not empty and is a single line. *)
Theorem minimal_app_one_line (symbol : string) (length : Z) :
  Ui.deliverable symbol length ->
  exists t,
    Ui.texts (Minimal.app symbol length) = [t]
    /\ t <> ""
    /\ Py.split_on (Ascii.ascii_of_nat 10) t = [t].
Proof.
  intros [Hsym [Hlo Hhi]]. unfold Ui.min_length in Hlo.
  destruct (symbols_plain symbol Hsym) as [Hne Hnl].
  exists (Minimal.string_creator symbol length).
  split; [reflexivity|]. unfold Minimal.string_creator, Py.str_mul. split.
  - apply str_repeat_nonempty; [exact Hne | lia].
  - apply split_on_absent, has_char_repeat, Hnl.
Qed.

(** X7. Whatever its widgets deliver, for a prefix without newline the
    solved app draws exactly one text; it has one line for the prefix, if
    there is one, plus [length] lines for a square and one line otherwise:
    never more than eleven. *)
Theorem solved_app_line_count (symbol : string) (length : Z)
    (prefix : string) (make_square : bool) :
  Ui.deliverable symbol length ->
  Py.has_char (Ascii.ascii_of_nat 10) prefix = false ->
  exists t,
    Ui.texts (MinimalSolved.app symbol length prefix make_square) = [t]
    /\ Z.of_nat (List.length (Py.split_on (Ascii.ascii_of_nat 10) t))
       = (if Py.truthy prefix then 1 else 0)
         + (if make_square then length else 1)
    /\ (List.length (Py.split_on (Ascii.ascii_of_nat 10) t) <= 11)%nat.
Proof.
  intros [Hsym [Hlo Hhi]] Hpre.
  unfold Ui.min_length in Hlo. unfold Ui.max_length in Hhi.
  destruct (symbols_plain symbol Hsym) as [_ Hnl].
  exists (MinimalSolved.string_creator symbol length prefix make_square).
  split; [reflexivity|].
  rewrite (solved_split symbol length prefix make_square Hnl Hpre).
  rewrite length_app.
  assert (Hrows : List.length
            (if make_square
             then match Z.to_nat length with
                  | O => [""]
                  | S _ => replicate (Z.to_nat length)
                             (Py.str_repeat symbol (Z.to_nat length))
                  end
             else [Py.str_repeat symbol (Z.to_nat length)])
          = if make_square then Z.to_nat length else 1%nat).
  { destruct make_square; [|reflexivity].
    destruct (Z.to_nat length) eqn:E; [lia|]. apply length_replicate. }
  rewrite Hrows.
  destruct (Py.truthy prefix), make_square; simpl List.length; lia.
Qed.

End MoreStringCreator.

(** ** The FOOOF app over a process lifetime *)

Section MoreFooof.
Import Fooof.
Context {L : Library}.

(** *** The stores over a process lifetime *)

Lemma run_stores_grow p ui (s : Session L) :
  raw_cache s ⊆ raw_cache (snd (run p ui s))
  /\ spectrum_cache s ⊆ spectrum_cache (snd (run p ui s)).
Proof.
  run_cases; split; try reflexivity; apply insert_subseteq; assumption.
Qed.

Lemma runs_stores_grow inputs (s : Session L) :
  raw_cache s ⊆ raw_cache (runs inputs s)
  /\ spectrum_cache s ⊆ spectrum_cache (runs inputs s).
Proof.
  revert s. induction inputs as [|[p ui] inputs IH]; intros s; simpl.
  - split; reflexivity.
  - destruct (run_stores_grow p ui s) as [Hr Hs].
    destruct (IH (snd (run p ui s))) as [Hr' Hs'].
    split; etrans; eassumption.
Qed.

(** X8. Over any sequence of runs an entry of either store is never
    dropped and never replaced: a path that has a recording keeps that
    recording, a stored spectrum stays the stored spectrum. *)
Theorem stores_only_grow inputs (s : Session L) :
  (forall p raw, raw_cache s !! p = Some raw ->
     raw_cache (runs inputs s) !! p = Some raw)
  /\ (forall spec, spectrum_cache s !! () = Some spec ->
        spectrum_cache (runs inputs s) !! () = Some spec).
Proof.
  destruct (runs_stores_grow inputs s) as [Hr Hs]. split.
  - intros p raw H. eapply lookup_weaken; eassumption.
  - intros spec H. eapply lookup_weaken; eassumption.
Qed.

Lemma run_coherent p ui (s : Session L) :
  coherent s -> coherent (snd (run p ui s)).
Proof.
  intros Hc. unfold coherent in *.
  run_cases; try exact Hc;
    intros q raw Hq;
    (destruct (decide (p = q)) as [<-|Hne];
     [ rewrite lookup_insert_eq in Hq; injection Hq as <-; eauto
     | rewrite lookup_insert_ne in Hq by exact Hne; eauto ]).
Qed.

Lemma runs_coherent inputs :
  coherent (runs inputs (blank (L:=L))).
Proof.
  assert (H0 : coherent (blank (L:=L))).
  { intros p raw Hp. unfold blank in Hp. cbn [raw_cache] in Hp.
    rewrite lookup_empty in Hp. discriminate. }
  revert H0. generalize (blank (L:=L)).
  induction inputs as [|[p ui] inputs IH]; intros s Hs; simpl;
    [exact Hs|]. apply IH, run_coherent, Hs.
Qed.

Lemma none_never_stored inputs :
  raw_cache (runs inputs (blank (L:=L))) !! None = None.
Proof.
  destruct (raw_cache (runs inputs blank) !! None) as [raw|] eqn:E;
    [|reflexivity].
  destruct (runs_coherent inputs None raw E) as (file & Hf & _).
  discriminate.
Qed.

(** X9. In a process started with empty stores, after any sequence of
    runs every recording in the store of [load_data] is stored under a
    path that is not [None], and is what the reader returns for the file
    of that path. *)
Theorem stored_recordings_are_read inputs p raw :
  raw_cache (runs inputs (blank (L:=L))) !! p = Some raw ->
  exists dir file,
    p = Some dir /\ path_to_file p = Ok file
    /\ read_raw_fif L file = Ok raw.
Proof.
  intros H. destruct (runs_coherent inputs p raw H) as (file & Hf & Hr).
  destruct p as [dir|]; [|discriminate]. eauto.
Qed.

(** *** The log of a run *)

Ltac interact_split :=
  rewrite interact_outcome; cbv zeta;
  repeat match goal with
         | |- context [match ?x with _ => _ end] => destruct x eqn:?
         end.

(** STEPS 2 to 5 log a first part of: extract, fit, plot, plot. *)
Lemma interact_log_prefix (raw : Raw L) (spec : Spectrum L) (ui : Widgets) :
  exists rest,
    interact_log raw spec ui ++ rest
    = [CallGetData (selectbox (meeg_ch_names_of L raw) (w_channel ui));
       CallFit (settings_of ui) (w_f_range ui);
       CallPlot false; CallPlot true].
Proof.
  change (interact_log raw spec ui)
    with (snd (outcome (interact raw spec ui))).
  interact_split; cbn [snd app]; eexists; reflexivity.
Qed.

Lemma count_prefix (p : Call -> bool) (log rest : list Call) :
  (count p log <= count p (log ++ rest))%nat.
Proof. rewrite count_app. lia. Qed.

Lemma interact_log_loads_nothing (raw : Raw L) (spec : Spectrum L)
    (ui : Widgets) :
  count is_any_read (interact_log raw spec ui) = 0%nat
  /\ count is_psd (interact_log raw spec ui) = 0%nat.
Proof.
  destruct (interact_log_prefix raw spec ui) as [rest H].
  pose proof (count_prefix is_any_read (interact_log raw spec ui) rest) as H1.
  pose proof (count_prefix is_psd (interact_log raw spec ui) rest) as H2.
  rewrite H in H1, H2. simpl in H1, H2. lia.
Qed.

(** X13. No run repeats a computation: a run adds to the log at most
    one read, one spectrum computation and one extraction of the channel,
    a fit only if it has extracted the channel, and at most two plots,
    only if it has called the fit. *)
Theorem run_log_shape p ui (s : Session L) :
  exists new,
    calls (snd (run p ui s)) = calls s ++ new
    /\ (count is_any_read new <= 1)%nat
    /\ (count is_psd new <= 1)%nat
    /\ (count is_get_data new <= 1)%nat
    /\ (count is_fit new <= count is_get_data new)%nat
    /\ (count is_plot new <= 2 * count is_fit new)%nat.
Proof.
  assert (Htail : forall (raw : Raw L) (spec : Spectrum L),
            (count is_get_data (interact_log raw spec ui) <= 1)%nat
            /\ (count is_fit (interact_log raw spec ui)
                <= count is_get_data (interact_log raw spec ui))%nat
            /\ (count is_plot (interact_log raw spec ui)
                <= 2 * count is_fit (interact_log raw spec ui))%nat).
  { intros raw spec.
    change (interact_log raw spec ui)
      with (snd (outcome (interact raw spec ui))).
    interact_split; cbn [snd app count is_get_data is_fit is_plot]; lia. }
  run_cases;
    rewrite <- ?app_assoc;
    eexists; (split; [reflexivity|]);
    rewrite ?count_app;
    cbn [count is_any_read is_psd is_get_data is_fit is_plot];
    try match goal with
        | |- context [interact_log ?r ?sp ui] =>
            destruct (Htail r sp) as (? & ? & ?);
            destruct (interact_log_loads_nothing r sp ui) as [? ?]
        end;
    lia.
Qed.

(** X11. Once a spectrum is stored, no later run computes a spectrum,
    whatever paths and widget values the runs are given. *)
Theorem spectrum_computed_once inputs (s : Session L) spec :
  spectrum_cache s !! () = Some spec ->
  count is_psd (calls (runs inputs s)) = count is_psd (calls s).
Proof.
  revert s. induction inputs as [|[p ui] inputs IH]; intros s Hs; simpl;
    [reflexivity|].
  rewrite IH.
  - run_cases; rewrite ?count_app,
      ?(proj2 (interact_log_loads_nothing _ _ _));
      cbn [count is_psd]; lia.
  - eapply lookup_weaken; [exact Hs|].
    apply (proj2 (run_stores_grow p ui s)).
Qed.

(** X12. With the recording of a path and a spectrum stored, any number
    of runs on that path, for any widget values, read no file, compute no
    spectrum and leave both stores as they are. *)
Theorem warm_runs_load_nothing p raw spec (uis : list Widgets)
    (s : Session L) :
  raw_cache s !! p = Some raw ->
  spectrum_cache s !! () = Some spec ->
  let s' := runs (map (fun ui => (p, ui)) uis) s in
  count is_any_read (calls s') = count is_any_read (calls s)
  /\ count is_psd (calls s') = count is_psd (calls s)
  /\ raw_cache s' = raw_cache s
  /\ spectrum_cache s' = spectrum_cache s.
Proof.
  revert s. induction uis as [|ui uis IH]; intros s Hr Hs; simpl.
  - auto.
  - assert (Hrun := run_warm p ui s raw spec Hr Hs).
    destruct (IH (snd (run p ui s))) as (H1 & H2 & H3 & H4);
      rewrite Hrun; session_simpl; try assumption.
    rewrite Hrun in H1, H2, H3, H4. session_simpl.
    cbn [snd calls raw_cache spectrum_cache] in H1, H2, H3, H4.
    rewrite H1, H2, H3, H4, !count_app.
    destruct (interact_log_loads_nothing raw spec ui) as [-> ->].
    repeat split; lia.
Qed.

(** X10. With [path_to_data = None], as the file is shipped, every run of
    a process started with empty stores ends at [load_data] with
    [TypeError]: the title block and the warning are drawn, no widget, no
    library is called and nothing is stored. *)
Theorem unset_path_always_stops inputs ui :
  let s := runs inputs (blank (L:=L)) in
  let out := run None ui s in
  fst out = Raise TypeError
  /\ screen (snd out) = intro_elements None
  /\ warnings (screen (snd out)) = [warning_text]
  /\ widgets (screen (snd out)) = []
  /\ calls (snd out) = calls s
  /\ raw_cache (snd out) = raw_cache s
  /\ spectrum_cache (snd out) = spectrum_cache s.
Proof.
  intros s out. subst out. unfold run.
  rewrite script_eq, load_data_eq. session_simpl.
  replace (raw_cache s !! None) with (@None (Raw L))
    by (symmetry; apply none_never_stored).
  cbn [path_to_file]. session_simpl. rewrite app_nil_r.
  repeat split; reflexivity.
Qed.

(** *** Where things are drawn *)

Lemma forallb_app_true {A} (f : A -> bool) (a b : list A) :
  forallb f a = true -> forallb f b = true -> forallb f (a ++ b) = true.
Proof. intros Ha Hb. rewrite forallb_app, Ha, Hb. reflexivity. Qed.

Lemma interact_drawn_placed (raw : Raw L) (spec : Spectrum L) ui :
  forallb well_placed (interact_drawn raw spec ui) = true.
Proof.
  change (interact_drawn raw spec ui)
    with (snd (fst (outcome (interact raw spec ui)))).
  interact_split; reflexivity.
Qed.

Lemma intro_elements_eq (p : option string) :
  intro_elements (L:=L) p
  = (Main, Title "FOOOF")
    :: map (fun link => (Expander, Markdown link)) links
    ++ match p with
       | None => [(Main, Warning warning_text)]
       | Some _ => []
       end.
Proof. destruct p; reflexivity. Qed.

(** X14. Every element a run draws is where the file puts it, however
    the run ends: title and warning in the main panel, the three links in
    the expander and nowhere else, the closing text in the main panel and
    nowhere else, the widgets in the sidebar, the figure in the left
    column and the metrics in the right column. Every screen starts with
    the title in the main panel followed by the three links in the
    expander. *)
Theorem elements_keep_their_place p ui (s : Session L) :
  forallb well_placed (screen (snd (run p ui s))) = true
  /\ exists rest,
       screen (snd (run p ui s))
       = (Main, Title "FOOOF")
         :: map (fun link => (Expander, Markdown link)) links ++ rest.
Proof.
  assert (Hintro : forallb well_placed (intro_elements (L:=L) p) = true)
    by (destruct p; reflexivity).
  split.
  - run_cases; rewrite ?app_nil_l;
      try exact Hintro;
      (apply forallb_app_true; [exact Hintro | apply interact_drawn_placed]).
  - run_cases; rewrite ?app_nil_l, intro_elements_eq, <- ?app_assoc;
      cbn [app]; eexists; reflexivity.
Qed.

(** *** What the widgets can and cannot change *)

(** X15. What a run loads does not depend on the widgets: from the same
    session and path, two runs with different widget values leave the
    same two stores and make the same number of reads and spectrum
    computations. *)
Theorem loads_ignore_widgets p ui ui' (s : Session L) :
  raw_cache (snd (run p ui s)) = raw_cache (snd (run p ui' s))
  /\ spectrum_cache (snd (run p ui s)) = spectrum_cache (snd (run p ui' s))
  /\ count is_any_read (calls (snd (run p ui s)))
     = count is_any_read (calls (snd (run p ui' s)))
  /\ count is_psd (calls (snd (run p ui s)))
     = count is_psd (calls (snd (run p ui' s))).
Proof.
  run_cases; rewrite ?count_app;
    repeat match goal with
           | |- context [count is_any_read (interact_log ?r ?sp ?u)] =>
               rewrite (proj1 (interact_log_loads_nothing r sp u))
           | |- context [count is_psd (interact_log ?r ?sp ?u)] =>
               rewrite (proj2 (interact_log_loads_nothing r sp u))
           end;
    repeat split; reflexivity.
Qed.

Lemma interact_ok_inv (raw : Raw L) (spec : Spectrum L) ui :
  interact_result raw spec ui = Ok tt ->
  exists pf fm,
    get_data L spec (selectbox (meeg_ch_names_of L raw) (w_channel ui))
      = Ok pf
    /\ fooof_fit L (settings_of ui) (snd pf) (squeeze L (fst pf))
                 (w_f_range ui) = Ok fm.
Proof.
  change (interact_result raw spec ui)
    with (fst (fst (outcome (interact raw spec ui)))).
  interact_split; cbn [fst]; intros H; try discriminate; eauto.
Qed.

Lemma settings_same ui ui' :
  same_but_annotations ui ui' ->
  settings_of ui = settings_of ui' /\ w_f_range ui = w_f_range ui'
  /\ w_channel ui = w_channel ui'.
Proof.
  intros (Hc & Hf & Hw & Hn & Hm). unfold settings_of.
  rewrite Hw, Hn, Hm. auto.
Qed.

(** X16. The two annotation checkboxes reach the plots only: two widget
    states that differ in nothing else give the same fit step, and two
    runs with them that both return show the same metrics. *)
Theorem annotations_leave_fit_alone ui ui' :
  same_but_annotations ui ui' ->
  (forall spec channel (s : Session L),
     fit spec channel ui s = fit spec channel ui' s)
  /\ (forall p (s : Session L),
        fst (run p ui s) = Ok tt -> fst (run p ui' s) = Ok tt ->
        metrics (screen (snd (run p ui s)))
        = metrics (screen (snd (run p ui' s)))).
Proof.
  intros Hsame. destruct (settings_same ui ui' Hsame) as (Hset & Hrange & Hch).
  split.
  - intros spec channel s. unfold fit. rewrite Hset, Hrange. reflexivity.
  - intros p s. run_cases; try discriminate;
      intros Hok Hok'; rewrite !metrics_app; f_equal;
      match goal with
      | |- metrics (interact_drawn ?r ?sp ?u) = metrics (interact_drawn _ _ ?u')
        =>
          destruct (interact_ok_inv r sp u Hok) as (pf & fm & Hget & Hfit);
          destruct (interact_ok_metrics r sp u pf fm Hget Hfit Hok)
            as (o & x & Ho & Hx & ->);
          rewrite Hch, Hset, Hrange in *;
          destruct (interact_ok_metrics r sp u' pf fm Hget Hfit Hok')
            as (o' & x' & Ho' & Hx' & ->);
          congruence
      end.
Qed.

(** *** STEP 5 on the edges *)

Lemma index_last_app {A} (front : list A) (x : A) :
  index_last (front ++ [x]) = Ok x.
Proof.
  induction front as [|y front IH]; [reflexivity|].
  simpl. destruct (front ++ [x]) eqn:E; [|exact IH].
  destruct front; discriminate.
Qed.

(** X17. The metric Exponent is the last aperiodic parameter and Offset
    the first, however many there are: with the three parameters of the
    knee mode the knee itself is not shown, and with a single parameter
    both metrics show it. *)
Theorem exponent_is_last_parameter fig (fm : Fm L) (s : Session L) front x :
  aperiodic_params_ L fm = front ++ [x] ->
  Forall (fun row => length row = 3%nat) (peak_params_ L fm) ->
  fst (render fig fm s) = Ok tt
  /\ metrics (screen (snd (render fig fm s)))
     = metrics (screen s)
       ++ ("Offset", round2 L (hd x front)) :: ("Exponent", round2 L x)
          :: match first_peak fm with
             | Some cf => [(peak_label, round2 L cf)]
             | None => []
             end.
Proof.
  intros Hap Hrows.
  assert (Hwf : well_formed fm).
  { split; [|exact Hrows]. rewrite Hap. destruct front; discriminate. }
  destruct (render_well_formed fig fm s Hwf)
    as (o & e & Ho & He & -> & _).
  rewrite Hap, index_last_app in He. injection He as <-.
  assert (o = hd x front) as ->.
  { rewrite Hap in Ho. destruct front; simpl in Ho |- *; congruence. }
  split; [reflexivity|]. unfold extend. session_simpl.
  rewrite metrics_app. f_equal. destruct (first_peak fm); reflexivity.
Qed.

(** X18. STEP 5 on a malformed model: without aperiodic parameters it
    ends with [IndexError] once the figure is drawn, before any metric;
    with aperiodic parameters but an empty first peak row it ends with
    [IndexError] after the figure and the metrics Offset and Exponent. *)
Theorem render_index_errors fig (fm : Fm L) (s : Session L) :
  (aperiodic_params_ L fm = [] ->
     render fig fm s
     = (Raise IndexError,
        extend s [(ColLeft, Pyplot (fst fig) (snd fig))] []))
  /\ (forall offset rest rows,
        aperiodic_params_ L fm = offset :: rest ->
        peak_params_ L fm = [] :: rows ->
        fst (render fig fm s) = Raise IndexError
        /\ figures (screen (snd (render fig fm s)))
           = figures (screen s) ++ [(fst fig, snd fig)]
        /\ map fst (metrics (screen (snd (render fig fm s))))
           = map fst (metrics (screen s)) ++ ["Offset"; "Exponent"]).
Proof.
  split.
  - intros Hap. rewrite (framed_render fig fm s).
    assert (Hout : outcome (render fig fm)
              = (Raise IndexError,
                 [(ColLeft, Pyplot (fst fig) (snd fig))], [])).
    { unfold render. rewrite Hap. cbn [index_first]. outcome_steps.
      reflexivity. }
    unfold outcome in Hout. injection Hout as -> -> ->. reflexivity.
  - intros offset rest rows Hap Hpk. rewrite (framed_render fig fm s).
    destruct (index_last_some offset rest) as [x Hx].
    assert (Hout : outcome (render fig fm)
              = (Raise IndexError,
                 [(ColLeft, Pyplot (fst fig) (snd fig));
                  (ColRight, Metric "Offset" (round2 L offset));
                  (ColRight, Metric "Exponent" (round2 L x))], [])).
    { unfold render, index_00. rewrite Hap, Hpk, Hx.
      cbn [index_first]. outcome_steps. reflexivity. }
    unfold outcome in Hout. injection Hout as -> -> ->.
    unfold extend. session_simpl.
    rewrite figures_app, metrics_app, map_app. repeat split; reflexivity.
Qed.

Lemma interact_widgets (raw : Raw L) (spec : Spectrum L) ui :
  widgets (interact_drawn raw spec ui)
  = ["Channel"; "Frequency range (Hz)"; "Peak width limits (Hz)";
     "Maximal number of peaks"; "Aperiodic mode"; "Annotate peaks";
     "Annotate aperiodic"].
Proof.
  change (interact_drawn raw spec ui)
    with (snd (fst (outcome (interact raw spec ui)))).
  interact_split; reflexivity.
Qed.

Lemma widgets_app (a b : list (Place * Element L)) :
  widgets (a ++ b) = widgets a ++ widgets b.
Proof.
  induction a as [|[w e] a IH]; simpl; [reflexivity|].
  destruct e; simpl; rewrite IH; reflexivity.
Qed.

(** X19. The sidebar is drawn only after the data: in a run whose two
    loads return, the seven widgets are on the screen, in the order of the
    file, however the rest of the run ends; in a run in which a load
    raises, the run ends with that exception and no widget is drawn. *)
Theorem sidebar_after_loads p ui (s : Session L) :
  let out := run p ui s in
  match load_data p (start p s) with
  | (Ok raw, s1) =>
      match get_spectrum raw s1 with
      | (Ok _, _) =>
          widgets (screen (snd out))
          = ["Channel"; "Frequency range (Hz)"; "Peak width limits (Hz)";
             "Maximal number of peaks"; "Aperiodic mode"; "Annotate peaks";
             "Annotate aperiodic"]
      | (Raise e, _) =>
          fst out = Raise e /\ widgets (screen (snd out)) = []
      end
  | (Raise e, _) => fst out = Raise e /\ widgets (screen (snd out)) = []
  end.
Proof.
  assert (Hintro : widgets (intro_elements (L:=L) p) = [])
    by (destruct p; reflexivity).
  intros out. subst out. unfold start.
  run_cases; rewrite ?app_nil_l, ?widgets_app, ?Hintro, ?interact_widgets;
    auto.
Qed.

End MoreFooof.

Lemma string_creator_nonpositive_witness :
  Minimal.string_creator "ab" (-3) = ""
  /\ MinimalSolved.string_creator "ab" (-3) "p" true
     = MinimalSolved.header "p".
Proof. apply string_creator_nonpositive. lia. Defined.

Lemma make_square_idle_up_to_one_witness :
  MinimalSolved.string_creator "ab" 1 "p" true
  = MinimalSolved.string_creator "ab" 1 "p" false.
Proof. apply make_square_idle_up_to_one. lia. Defined.

Lemma solved_extends_minimal_witness :
  exists rows,
    MinimalSolved.string_creator "ab" 1 "p" true
    = MinimalSolved.header "p" +:+ rows +:+ Minimal.string_creator "ab" 1
    /\ rows = "".
Proof.
  destruct (solved_extends_minimal "ab" 1 "p" true) as (rows & H & H0).
  exists rows. split; [exact H | apply H0; right; lia].
Defined.

Lemma string_creator_lines_witness :
  Py.split_on (Ascii.ascii_of_nat 10)
    (MinimalSolved.string_creator "ab" 2 "p" true)
  = ["p:"; "abab"; "abab"].
Proof.
  apply (string_creator_lines "ab" 2 "p" true); reflexivity.
Defined.

Lemma minimal_app_one_line_witness :
  exists t,
    Ui.texts (Minimal.app "🌊" 5) = [t]
    /\ t <> ""
    /\ Py.split_on (Ascii.ascii_of_nat 10) t = [t].
Proof.
  apply minimal_app_one_line. split; [left; reflexivity|].
  unfold Ui.min_length, Ui.max_length. lia.
Defined.

Lemma solved_app_line_count_witness :
  exists t,
    Ui.texts (MinimalSolved.app "🐘" 10 "p" true) = [t]
    /\ Z.of_nat (List.length (Py.split_on (Ascii.ascii_of_nat 10) t))
       = 1 + 10
    /\ (List.length (Py.split_on (Ascii.ascii_of_nat 10) t) <= 11)%nat.
Proof.
  apply (solved_app_line_count "🐘" 10 "p" true); [|reflexivity].
  split; [right; left; reflexivity|].
  unfold Ui.min_length, Ui.max_length. lia.
Defined.

Lemma stores_only_grow_witness :
  Fooof.raw_cache
    (Fooof.runs [(Some "B", Fooof.Demo.ui)] (Fooof.Demo.after false "A"))
    !! Some "A" = Some 1.
Proof.
  apply (proj1 (stores_only_grow (L:=Fooof.Demo.library false)
                  [(Some "B", Fooof.Demo.ui)] (Fooof.Demo.after false "A"))).
  vm_compute. reflexivity.
Defined.

Lemma stored_recordings_are_read_witness :
  exists dir file,
    Some "A" = Some dir
    /\ Fooof.path_to_file (Some "A") = Fooof.Ok file
    /\ Fooof.read_raw_fif (Fooof.Demo.library false) file = Fooof.Ok 1.
Proof.
  apply (stored_recordings_are_read (L:=Fooof.Demo.library false)
           [(Some "A", Fooof.Demo.ui)] (Some "A") 1).
  vm_compute. reflexivity.
Defined.

Lemma spectrum_computed_once_witness :
  Fooof.count Fooof.is_psd
    (Fooof.calls
       (Fooof.runs [(Some "B", Fooof.Demo.ui); (Some "C", Fooof.Demo.ui)]
          (Fooof.Demo.after false "A")))
  = Fooof.count Fooof.is_psd (Fooof.calls (Fooof.Demo.after false "A")).
Proof.
  apply (spectrum_computed_once (L:=Fooof.Demo.library false)
           [(Some "B", Fooof.Demo.ui); (Some "C", Fooof.Demo.ui)]
           (Fooof.Demo.after false "A") 100).
  vm_compute. reflexivity.
Defined.

Lemma warm_runs_load_nothing_witness :
  let s := Fooof.Demo.after false "A" in
  let s' := Fooof.runs
              (map (fun ui => (Some "A", ui))
                   [Fooof.Demo.ui_high; Fooof.Demo.ui_inverted]) s in
  Fooof.count Fooof.is_any_read (Fooof.calls s')
  = Fooof.count Fooof.is_any_read (Fooof.calls s)
  /\ Fooof.count Fooof.is_psd (Fooof.calls s')
     = Fooof.count Fooof.is_psd (Fooof.calls s)
  /\ Fooof.raw_cache s' = Fooof.raw_cache s
  /\ Fooof.spectrum_cache s' = Fooof.spectrum_cache s.
Proof.
  apply (warm_runs_load_nothing (L:=Fooof.Demo.library false) (Some "A")
           1 100 [Fooof.Demo.ui_high; Fooof.Demo.ui_inverted]
           (Fooof.Demo.after false "A")).
  - vm_compute. reflexivity.
  - vm_compute. reflexivity.
Defined.

Lemma annotations_leave_fit_alone_witness :
  Fooof.fit (L:=Fooof.Demo.library false) 100 (Some "EEG039")
    Fooof.Demo.ui Fooof.blank
  = Fooof.fit (L:=Fooof.Demo.library false) 100 (Some "EEG039")
      Fooof.Demo.ui_annotated Fooof.blank.
Proof.
  apply (proj1 (annotations_leave_fit_alone (L:=Fooof.Demo.library false)
                  Fooof.Demo.ui Fooof.Demo.ui_annotated
                  ltac:(repeat split; reflexivity))).
Defined.

Lemma exponent_is_last_parameter_witness :
  let out := Fooof.render (L:=Fooof.Demo.library false) (false, true)
               ([120; 0; 45], []) Fooof.blank in
  fst out = Fooof.Ok tt
  /\ Fooof.metrics (Fooof.screen (snd out))
     = [("Offset", 120); ("Exponent", 45)].
Proof.
  apply (exponent_is_last_parameter (L:=Fooof.Demo.library false)
           (false, true) ([120; 0; 45], []) Fooof.blank [120; 0] 45).
  - reflexivity.
  - constructor.
Defined.

Lemma render_index_errors_witness :
  Fooof.render (L:=Fooof.Demo.library false) (false, true) ([], [])
    Fooof.blank
  = (Fooof.Raise Fooof.IndexError,
     Fooof.extend Fooof.blank
       [(Fooof.ColLeft,
         Fooof.Pyplot (L:=Fooof.Demo.library false) false true)] []).
Proof.
  apply (proj1 (render_index_errors (L:=Fooof.Demo.library false)
                  (false, true) ([], []) Fooof.blank)).
  reflexivity.
Defined.

(** ** [load_data] over a process lifetime *)

Section LoadOnce.
Import Fooof.
Context {L : Library}.

Lemma run_reads q ui (s : Session L) :
  count is_any_read (calls (snd (run q ui s)))
  = (count is_any_read (calls s)
     + match raw_cache s !! q with
       | Some _ => 0
       | None => match path_to_file q with Ok _ => 1 | Raise _ => 0 end
       end)%nat.
Proof.
  run_cases; rewrite ?count_app;
    repeat match goal with
           | |- context [count is_any_read (interact_log ?r ?sp ?u)] =>
               rewrite (proj1 (interact_log_loads_nothing r sp u))
           end;
    cbn [count is_any_read]; lia.
Qed.

Lemma run_stores_valid p ui (s : Session L) file raw :
  path_to_file p = Ok file ->
  read_raw_fif L file = Ok raw ->
  is_Some (raw_cache (snd (run p ui s)) !! p).
Proof.
  intros Hfile Hvalid.
  run_cases; rewrite ?lookup_insert_eq; eauto.
Qed.

Lemma run_keeps_entry p q ui (s : Session L) :
  is_Some (raw_cache s !! p) -> is_Some (raw_cache (snd (run q ui s)) !! p).
Proof.
  intros [raw Hraw]. exists raw.
  eapply lookup_weaken; [exact Hraw|].
  apply (proj1 (run_stores_grow q ui s)).
Qed.

Lemma reads_for_bound p file raw inputs :
  path_to_file p = Ok file ->
  read_raw_fif L file = Ok raw ->
  forall s : Session L,
    (is_Some (raw_cache s !! p) -> reads_for p inputs s = 0%nat)
    /\ (reads_for p inputs s <= 1)%nat.
Proof.
  intros Hfile Hvalid.
  induction inputs as [|[q ui] inputs IH]; intros s; simpl.
  - split; [reflexivity | lia].
  - destruct (IH (snd (run q ui s))) as [IH0 IH1].
    rewrite run_reads.
    destruct (decide (q = p)) as [->|Hne].
    + destruct (raw_cache s !! p) as [v|] eqn:Hp.
      * assert (H0 := IH0 (run_keeps_entry p p ui s
                             ltac:(rewrite Hp; eauto))).
        rewrite H0. split; [intros _|]; lia.
      * rewrite Hfile.
        rewrite (IH0 (run_stores_valid p ui s file raw Hfile Hvalid)).
        split; [intros [? ?]; discriminate | lia].
    + split; [|lia]. intros Hs.
      rewrite (IH0 (run_keeps_entry p q ui s Hs)). reflexivity.
Qed.

(** C4, as the code has it. For a path whose file the reader can read,
    [load_data] returns a recording, and a second call with the same path
    is a hit: it hands out a new object with the same content as the
    first, leaves the session as it is and reads nothing. Over any
    sequence of runs of a process, the runs given that path read the file
    at most once between them. *)
Theorem load_data_cached (path_to_data : option string) (file : string)
    (raw : Raw L) :
  path_to_file path_to_data = Ok file ->
  read_raw_fif L file = Ok raw ->
  (forall born (s : Session L), exists v s1,
      load_data_object path_to_data born s
      = (Ok (Build_Obj born v), s1, S born)
      /\ load_data_object path_to_data (S born) s1
         = (Ok (Build_Obj (S born) v), s1, S (S born))
      /\ (count is_any_read (calls s1)
          <= S (count is_any_read (calls s)))%nat)
  /\ (forall inputs,
        (reads_for path_to_data inputs (blank (L:=L)) <= 1)%nat).
Proof.
  intros Hfile Hvalid. split.
  - intros born s. unfold load_data_object. rewrite load_data_eq.
    destruct (raw_cache s !! path_to_data) as [v|] eqn:Hrc.
    + exists v, s. rewrite load_data_eq, Hrc. repeat split. lia.
    + rewrite Hfile, Hvalid. eexists _, _. split; [reflexivity|].
      rewrite load_data_eq. session_simpl. rewrite lookup_insert_eq.
      split; [reflexivity|]. rewrite count_app. simpl. lia.
  - intros inputs.
    apply (reads_for_bound path_to_data file raw inputs Hfile Hvalid).
Qed.

End LoadOnce.

(** C4, as the specification words it, fails on the code: the second
    call on the path [A] returns an object that is not the one the first
    call returned. *)
Lemma second_load_is_a_copy :
  ~ Fooof.hit_returns_same_object (L:=Fooof.Demo.library false).
Proof.
  intros H.
  specialize (H (Some "A") 0%nat Fooof.blank
                (snd (Fooof.load_data (Some "A") Fooof.blank))
                (snd (Fooof.load_data (Some "A") Fooof.blank))
                (Fooof.Build_Obj 0 1) (Fooof.Build_Obj 1 1) 1%nat 2%nat).
  assert (H' := H ltac:(vm_compute; reflexivity)
                  ltac:(vm_compute; reflexivity)).
  discriminate.
Qed.

(** C7, on the code: the same path and the same widget values do not
    decide what a cycle shows. A run on the recording under [B] shows the
    metrics of the spectrum of [A] in a process that ran on [A] before,
    and those of [B]'s own spectrum in a new process. *)
Theorem cycle_depends_on_history :
  ~ Fooof.cycle_decided_by_inputs (L:=Fooof.Demo.library false)
  /\ Fooof.metrics
       (Fooof.screen (snd (Fooof.run (Some "B") Fooof.Demo.ui
                             (Fooof.Demo.after false "A"))))
     = [("Offset", 101); ("Exponent", 45); (Fooof.peak_label, 10)]
  /\ Fooof.metrics
       (Fooof.screen (snd (Fooof.run (L:=Fooof.Demo.library false)
                             (Some "B") Fooof.Demo.ui Fooof.blank)))
     = [("Offset", 201); ("Exponent", 45); (Fooof.peak_label, 10)].
Proof.
  split; [|split; vm_compute; reflexivity].
  intros H.
  specialize (H (Some "B") Fooof.Demo.ui (Fooof.Demo.after false "A")
                Fooof.blank).
  vm_compute in H. discriminate.
Qed.

Lemma load_data_cached_witness :
  (Fooof.reads_for (Some "A")
     [(Some "A", Fooof.Demo.ui); (Some "B", Fooof.Demo.ui);
      (Some "A", Fooof.Demo.ui_high)]
     (Fooof.blank (L:=Fooof.Demo.library false)) <= 1)%nat.
Proof.
  exact (proj2 (load_data_cached (L:=Fooof.Demo.library false) (Some "A")
                  "A/sub-01/sub-01-raw.fif" 1 eq_refl eq_refl) _).
Defined.

Example two_spellings_two_reads :
  Fooof.path_to_file (Some "A/") = Fooof.path_to_file (Some "A")
  /\ Fooof.count (Fooof.is_read "A/sub-01/sub-01-raw.fif")
       (Fooof.calls
          (Fooof.runs [(Some "A", Fooof.Demo.ui); (Some "A/", Fooof.Demo.ui)]
             (Fooof.blank (L:=Fooof.Demo.library false)))) = 2%nat.
Proof. vm_compute. split; reflexivity. Qed.

Example relative_file_for_empty_path :
  Fooof.path_to_file (Some "") = Fooof.Ok "sub-01/sub-01-raw.fif".
Proof. reflexivity. Qed.

(** C5, as the specification words it, fails on the code: with the
    widgets at their initial values, which they can deliver, the fit
    raises on the spectrum of the recording under [C], and so does drawing
    what was fitted. *)
Lemma render_after_fit_can_raise :
  ~ Fooof.render_after_fit_never_raises (L:=Fooof.Demo.library false).
Proof.
  intros H.
  specialize (H 3 300 Fooof.Demo.ui Fooof.blank).
  assert (H' := H ltac:(vm_compute; reflexivity)).
  vm_compute in H'. discriminate.
Qed.
